(** * Notion avatar generator: the Flask server [server.py]

    A shallow embedding of [server.py] and the properties of its
    request validation, style conversion and persistence.

    Conventions.
    - A Python [str] is a [string]: the sequence of its code points, for
      code points below 256.  A Python [bytes] is a [list byte].
    - Python integers are [Z].
    - The module globals ([client], [reference_images]), the process
      environment, the files on disk, the clock and the requests sent to
      the generative-model service make up the [World]; handlers are
      computations in a state-and-exception monad over it.
    - Pillow and the generative-model client are libraries outside the
      program: they are taken through interfaces ([PIL], [Client]).
    - [logger] calls only write to the log and are left out. *)

From Stdlib Require Import ZArith Ascii String List Bool Lia.
From Stdlib Require Import Strings.Byte DecimalString.
From stdpp Require Import gmap strings list fin_maps.

Local Open Scope string_scope.
Local Open Scope list_scope.
Local Open Scope Z_scope.

(** ** Python strings *)

Module Str.

(** [c in s] for a one-character [c]. *)
Fixpoint contains (c : ascii) (s : string) : bool :=
  match s with
  | EmptyString => false
  | String a s' => Ascii.eqb a c || contains c s'
  end.

(** The split of [s] at the last occurrence of [c], if there is one. *)
Fixpoint rsplit_last (c : ascii) (s : string) : option (string * string) :=
  match s with
  | EmptyString => None
  | String a s' =>
      match rsplit_last c s' with
      | Some (pre, post) => Some (String a pre, post)
      | None => if Ascii.eqb a c then Some (EmptyString, s') else None
      end
  end.

(** [s.rsplit(c, 1)]: at most one split, taken from the right. *)
Definition rsplit1 (c : ascii) (s : string) : list string :=
  match rsplit_last c s with
  | Some (pre, post) => [pre; post]
  | None => [s]
  end.

(** [str.lower] on one code point below 256: the capitals A-Z and the
    Latin-1 capitals U+00C0-U+00DE (but the sign U+00D7) move up by 32. *)
Definition lower_char (a : ascii) : ascii :=
  let n := N_of_ascii a in
  if ((65 <=? n) && (n <=? 90))%N
     || ((192 <=? n) && (n <=? 222) && negb (n =? 215))%N
  then ascii_of_N (n + 32)
  else a.

Fixpoint lower (s : string) : string :=
  match s with
  | EmptyString => EmptyString
  | String a s' => String (lower_char a) (lower s')
  end.

End Str.

(** ** Configuration *)

Definition UPLOAD_FOLDER : string := "public/outputs".
Definition REFERENCE_FOLDER : string := "public".
Definition MAX_FILE_SIZE : Z := 10 * 1024 * 1024.
Definition ALLOWED_EXTENSIONS : gset string :=
  {[ "png"; "jpg"; "jpeg"; "gif"; "bmp"; "webp" ]}.

(** [Path / name] *)
Definition path_join (dir name : string) : string := dir +:+ "/" +:+ name.

(** ** [allowed_file] *)

(** [l[1]] of the source is only reached behind ['.' in filename], where
    the split has two parts ([rsplit1_length]); the default is never read. *)
Definition allowed_file (filename : string) : bool :=
  Str.contains "." filename
  && bool_decide (Str.lower (nth 1 (Str.rsplit1 "." filename) "") ∈ ALLOWED_EXTENSIONS).

(** ** Exceptions, results and the handler monad *)

(** A raised exception, by its class name and [str(e)]. *)
Record Exn := Exception { exn_class : string; exn_str : string }.

Inductive Result (A : Type) : Type :=
| Return (a : A)
| Raise (e : Exn).
Arguments Return {A} a.
Arguments Raise {A} e.

(** A computation over the state [W] that returns or raises; the state
    changes made before a raise stay, as in Python. *)
Definition M (W A : Type) : Type := W -> Result A * W.

Module Monad.

Definition ret {W A} (a : A) : M W A := fun w => (Return a, w).

Definition bind {W A B} (m : M W A) (k : A -> M W B) : M W B :=
  fun w =>
    match m w with
    | (Return a, w') => k a w'
    | (Raise e, w') => (Raise e, w')
    end.

Definition raise {W A} (e : Exn) : M W A := fun w => (Raise e, w).

(** [try: m  except Exception as e: h e] *)
Definition try_except {W A} (m : M W A) (h : Exn -> M W A) : M W A :=
  fun w =>
    match m w with
    | (Return a, w') => (Return a, w')
    | (Raise e, w') => h e w'
    end.

Definition get {W} : M W W := fun w => (Return w, w).
Definition modify {W} (f : W -> W) : M W unit := fun w => (Return tt, f w).

(** A library call that returns or raises and does not touch the state. *)
Definition lift {W A} (r : Result A) : M W A := fun w => (r, w).

(** [for x in l: f x] *)
Fixpoint for_each {W A} (l : list A) (f : A -> M W unit) : M W unit :=
  match l with
  | [] => ret tt
  | x :: l' => bind (f x) (fun _ => for_each l' f)
  end.

End Monad.

Declare Scope monad_scope.
Delimit Scope monad_scope with monad.
Notation "x <- m ;; k" := (Monad.bind m (fun x => k))
  (at level 100, m at next level, right associativity) : monad_scope.
Notation "m ;;; k" := (Monad.bind m (fun _ => k))
  (at level 100, right associativity) : monad_scope.
Local Open Scope monad_scope.

(** ** Python values met in the program *)

(** [str(n)] for an integer. *)
Definition str_of_int (z : Z) : string := NilZero.string_of_int (Z.to_int z).

Definition Z_of_byte (b : byte) : Z := Z.of_N (Byte.to_N b).
Definition byte_of_Z (z : Z) : byte :=
  match Byte.of_N (Z.to_N (z mod 256)) with
  | Some b => b
  | None => x00
  end.
Definition Z_of_ascii (a : ascii) : Z := Z.of_N (N_of_ascii a).
Definition ascii_of_Z (z : Z) : ascii := ascii_of_N (Z.to_N z).

(** ** [base64.b64decode] (Python standard library)

    [b64decode(s)] with its default [validate=False]: a [str] argument is
    encoded as ASCII ([ValueError] otherwise) and handed to
    [binascii.a2b_base64], whose loop skips every character outside the
    alphabet, stops at a complete pad sequence and fails on a trailing
    incomplete quad. *)

Module base64.

Definition BASE64_PAD : Z := 61.

(** The decoding table: the 6-bit value of an alphabet character, 255
    for any other character (the pad is tested before the table is read). *)
Definition table_a2b_base64 (c : Z) : Z :=
  if (65 <=? c) && (c <=? 90) then c - 65
  else if (97 <=? c) && (c <=? 122) then c - 97 + 26
  else if (48 <=? c) && (c <=? 57) then c - 48 + 52
  else if c =? 43 then 62
  else if c =? 47 then 63
  else if c =? 61 then 0
  else 255.

(** Assignment to an [unsigned char]. *)
Definition u8 (z : Z) : Z := Z.land z 255.

Definition binascii_Error (msg : string) : Exn := Exception "binascii.Error" msg.

Fixpoint a2b_loop (ascii_data : list Z) (quad_pos leftchar pads : Z)
    (bin_data : list Z) : Result (list Z) :=
  match ascii_data with
  | [] =>
      if quad_pos =? 0 then Return bin_data
      else if quad_pos =? 1 then
        Raise (binascii_Error
          ("Invalid base64-encoded string: number of data characters ("
           +:+ str_of_int (Z.of_nat (length bin_data) / 3 * 4 + 1)
           +:+ ") cannot be 1 more than a multiple of 4"))
      else Raise (binascii_Error "Incorrect padding")
  | this_ch :: rest =>
      if this_ch =? BASE64_PAD then
        if (2 <=? quad_pos) && (4 <=? quad_pos + (pads + 1)) then Return bin_data
        else a2b_loop rest quad_pos leftchar
               (if 2 <=? quad_pos then pads + 1 else pads) bin_data
      else
        let this_ch := table_a2b_base64 this_ch in
        if 64 <=? this_ch then a2b_loop rest quad_pos leftchar pads bin_data
        else if quad_pos =? 0 then
          a2b_loop rest 1 this_ch 0 bin_data
        else if quad_pos =? 1 then
          a2b_loop rest 2 (Z.land this_ch 15) 0
            (bin_data ++ [u8 (Z.lor (Z.shiftl leftchar 2) (Z.shiftr this_ch 4))])
        else if quad_pos =? 2 then
          a2b_loop rest 3 (Z.land this_ch 3) 0
            (bin_data ++ [u8 (Z.lor (Z.shiftl leftchar 4) (Z.shiftr this_ch 2))])
        else
          a2b_loop rest 0 0 0
            (bin_data ++ [u8 (Z.lor (Z.shiftl leftchar 6) this_ch)])
  end.

Definition a2b_base64 (data : list Z) : Result (list byte) :=
  match a2b_loop data 0 0 0 [] with
  | Return out => Return (map byte_of_Z out)
  | Raise e => Raise e
  end.

(** [s.encode('ascii')] *)
Definition encode_ascii (s : string) : Result (list Z) :=
  let codes := map Z_of_ascii (list_ascii_of_string s) in
  if forallb (fun c => c <? 128) codes then Return codes
  else Raise (Exception "ValueError"
                "string argument should contain only ASCII characters").

Definition b64decode (s : string) : Result (list byte) :=
  match encode_ascii s with
  | Return data => a2b_base64 data
  | Raise e => Raise e
  end.

(** The encoder [b64encode(b).decode('ascii')], for the round trip. *)
Definition table_b2a_base64 (v : Z) : Z :=
  if v <? 26 then v + 65
  else if v <? 52 then v - 26 + 97
  else if v <? 62 then v - 52 + 48
  else if v =? 62 then 43
  else 47.

Fixpoint b2a (data : list Z) : list Z :=
  match data with
  | [] => []
  | [b0] =>
      [table_b2a_base64 (Z.shiftr b0 2);
       table_b2a_base64 (Z.shiftl (Z.land b0 3) 4);
       BASE64_PAD; BASE64_PAD]
  | [b0; b1] =>
      [table_b2a_base64 (Z.shiftr b0 2);
       table_b2a_base64 (Z.lor (Z.shiftl (Z.land b0 3) 4) (Z.shiftr b1 4));
       table_b2a_base64 (Z.shiftl (Z.land b1 15) 2);
       BASE64_PAD]
  | b0 :: b1 :: b2 :: rest =>
      table_b2a_base64 (Z.shiftr b0 2)
      :: table_b2a_base64 (Z.lor (Z.shiftl (Z.land b0 3) 4) (Z.shiftr b1 4))
      :: table_b2a_base64 (Z.lor (Z.shiftl (Z.land b1 15) 2) (Z.shiftr b2 6))
      :: table_b2a_base64 (Z.land b2 63)
      :: b2a rest
  end.

Definition b64encode (b : list byte) : string :=
  string_of_list_ascii (map ascii_of_Z (b2a (map Z_of_byte b))).

(** The bit identities behind the round trip, as a check on a pair of
    bytes: the 6-bit groups cut from the bytes are in range, and the
    bytes rebuilt from them are the bytes. *)
Definition sextet (s : Z) : bool := (0 <=? s) && (s <? 64).

Definition pair_ok (b0 b1 : Z) : bool :=
  let s0 := Z.shiftr b0 2 in
  let s1 := Z.lor (Z.shiftl (Z.land b0 3) 4) (Z.shiftr b1 4) in
  let s1' := Z.shiftl (Z.land b0 3) 4 in
  let s2 := Z.lor (Z.shiftl (Z.land b0 15) 2) (Z.shiftr b1 6) in
  let s2' := Z.shiftl (Z.land b0 15) 2 in
  let s3 := Z.land b1 63 in
  sextet s0 && sextet s1 && sextet s1' && sextet s2 && sextet s2' && sextet s3
  && (u8 (Z.lor (Z.shiftl s0 2) (Z.shiftr s1 4)) =? b0)
  && (u8 (Z.lor (Z.shiftl s0 2) (Z.shiftr s1' 4)) =? b0)
  && (Z.land s1 15 =? Z.shiftr b1 4)
  && (u8 (Z.lor (Z.shiftl (Z.shiftr b0 4) 4) (Z.shiftr s2 2)) =? b0)
  && (u8 (Z.lor (Z.shiftl (Z.shiftr b0 4) 4) (Z.shiftr s2' 2)) =? b0)
  && (u8 (Z.lor (Z.shiftl (Z.land s2 3) 6) s3) =? b1).

Definition all_pairs (P : Z -> Z -> bool) : bool :=
  forallb (fun x => forallb (P x) (seqZ 0 256)) (seqZ 0 256).

End base64.

(** ** Clock *)

Record datetime := {
  year : Z; month : Z; day : Z;
  hour : Z; minute : Z; second : Z; microsecond : Z
}.

(** The last [n] decimal digits of [z], zero-padded. *)
Fixpoint pad_digits (n : nat) (z : Z) : string :=
  match n with
  | O => ""
  | S k => pad_digits k (z / 10) +:+ String (ascii_of_Z (48 + z mod 10)) ""
  end.

(** [strftime('%Y%m%d_%H%M%S')], for a four-digit year. *)
Definition strftime_compact (d : datetime) : string :=
  pad_digits 4 (year d) +:+ pad_digits 2 (month d) +:+ pad_digits 2 (day d)
  +:+ "_"
  +:+ pad_digits 2 (hour d) +:+ pad_digits 2 (minute d) +:+ pad_digits 2 (second d).

(** [isoformat()] *)
Definition isoformat (d : datetime) : string :=
  pad_digits 4 (year d) +:+ "-" +:+ pad_digits 2 (month d) +:+ "-"
  +:+ pad_digits 2 (day d) +:+ "T"
  +:+ pad_digits 2 (hour d) +:+ ":" +:+ pad_digits 2 (minute d) +:+ ":"
  +:+ pad_digits 2 (second d)
  +:+ (if microsecond d =? 0 then "" else "." +:+ pad_digits 6 (microsecond d)).

(** ** HTTP *)

#[local] Unset Elimination Schemes.
Inductive Json :=
| JStr (s : string)
| JInt (z : Z)
| JBool (b : bool)
| JList (l : list Json)
| JDict (fields : list (string * Json)).
#[local] Set Elimination Schemes.

Inductive Body :=
| JsonBody (j : Json)
| FileBody (content : list byte)
| NotFoundPage.

Record Response := { status : Z; body : Body }.

(** [jsonify(d)] and [jsonify(d), code] *)
Definition jsonify (j : Json) : Response := {| status := 200; body := JsonBody j |}.
Definition jsonify_status (j : Json) (code : Z) : Response :=
  {| status := code; body := JsonBody j |}.
Definition error_body (msg : string) : Json := JDict [("error", JStr msg)].

(** An uploaded file: its declared name, a [str], and the content of its
    stream, whose length is what [seek(0, 2)] and [tell()] measure. *)
Record FileStorage := { filename : string; stream : list byte }.

(** [request.files]: a multi-dict, read by its first entry for a key. *)
Definition FilesDict : Type := list (string * FileStorage).

Fixpoint files_get (key : string) (files : FilesDict) : option FileStorage :=
  match files with
  | [] => None
  | (k, f) :: rest => if String.eqb k key then Some f else files_get key rest
  end.

Inductive Request :=
| GET_index
| GET_health
| POST_convert (files : FilesDict)
| GET_outputs (name : string).

(** ** The model's response *)

Inductive PyData :=
| PyBytes (b : list byte)
| PyStr (s : string)
| PyNone.

Record Blob := { data : PyData }.

(** A part of the response; [None] for an attribute that is missing,
    [None] or otherwise false. *)
Record Part := { inline_data : option Blob; text : option string }.
Record Content := { parts : option (list Part) }.
Record Candidate := { content : option Content }.
Record GenerateContentResponse := { candidates : option (list Candidate) }.

(** [response.candidates[0].content.parts], as the comprehension walks it. *)
Definition response_parts (response : GenerateContentResponse) : Result (list Part) :=
  match candidates response with
  | None => Raise (Exception "TypeError" "'NoneType' object is not subscriptable")
  | Some [] => Raise (Exception "IndexError" "list index out of range")
  | Some (cand :: _) =>
      match content cand with
      | None => Raise (Exception "AttributeError"
                         "'NoneType' object has no attribute 'parts'")
      | Some c =>
          match parts c with
          | None => Raise (Exception "TypeError" "'NoneType' object is not iterable")
          | Some ps => Return ps
          end
      end
  end.

(** [[part.inline_data.data for part in ps if ... part.inline_data]] *)
Fixpoint inline_payloads (ps : list Part) : list PyData :=
  match ps with
  | [] => []
  | part :: rest =>
      match inline_data part with
      | Some blob => data blob :: inline_payloads rest
      | None => inline_payloads rest
      end
  end.

(** ** The converter's constants *)

Definition MODEL : string := "gemini-2.5-flash-image-preview".

(** The instruction text, as the bytes of its UTF-8 encoding. *)
Definition prompt : string := "STYLE REFERENCE EXAMPLES: The first 3 images show the EXACT Notion avatar style to replicate.

TASK: Convert the final photo into the same minimalist black and white avatar style as the reference examples.

CRITICAL: FACE AND HEAD ONLY
• Show ONLY the person's face and head - nothing below the neck
• Even if the source photo shows shoulders, chest, or body - ignore these parts
• Focus exclusively on facial features, hair, and head shape
• Create a head-and-shoulders composition but only draw the head part

STYLE REQUIREMENTS (match references exactly):
• Pure black lines on white background
• Clean, simple geometric shapes
• Minimalist cartoon illustration
• Square format (1:1 aspect ratio)
• Thick, bold black line weight (not thin lines)
• Strong contrast and bold styling

ANALYZE THE PERSON CAREFULLY:
• Look ONLY at what is actually visible in the photo
• Hair style, glasses, face shape, actual facial hair presence
• Do NOT assume or add features that aren't clearly visible

CONVERT FOLLOWING THESE RULES:

FACE:
• Simple oval/circle matching their actual face shape
• EYES: Be creative but accurate - use ovals, circles, or simple shapes that match their eye shape and expression. Can show eyelashes, eye direction, or subtle expressions if visible in source
• EYEBROWS: Match their actual eyebrow shape and thickness - can be straight lines, arches, or thick shapes depending on the person's real eyebrows
• Minimal nose indication (small line or dot)  
• Simple curved line for mouth that reflects their expression
• Stay true to their actual facial structure and expressions

HAIR:
• Bold, solid black shapes with thick outlines
• Match their actual hair volume and style
• For curly hair: simple wavy shapes, not overly dense
• For straight hair: clean geometric shapes
• Keep hair proportionate and realistic to source
• Use thick black lines consistent with Notion style

FACIAL HAIR - CRITICAL RULE:
• ONLY add facial hair if it's CLEARLY visible in the source photo
• If the person appears clean-shaven, DO NOT add any beard or mustache
• If uncertain about facial hair presence, leave the face clean
• When facial hair IS present: use light, minimal black shapes

GENDER REPRESENTATION:
• Focus on accuracy over gender stereotypes
• Use subtle differences in face shape and features
• Don't over-emphasize masculine/feminine traits
• Eye and eyebrow styles should match the individual, not gender assumptions

ACCESSORIES:
• Glasses: Simple geometric frame shapes
• Keep essential identifying accessories

COMPOSITION:
• HEAD AND FACE ONLY - no clothing, no body parts
• If you must show a tiny bit of neck/collar area, keep it minimal
• Focus 95% on the face and hair

FINAL INSTRUCTION:
Create a clean, conservative Notion-style avatar that:
• Accurately represents ONLY what's visible in the source photo
• Uses subtle, proportionate styling - not heavy or exaggerated
• Preserves the person's actual identity without adding fictional elements
• Matches the reference style while staying true to the source image

REMEMBER: When in doubt, be conservative and accurate rather than stylized.".

(** ** [repr(s)] for a [str]

    The quote is the single one, or the double one when the text has a
    single quote and no double one; the quote and the backslash are
    escaped, tab, newline and return have their letters, and every other
    code point that is not printable is written [\xhh]. *)

Module PyRepr.

Definition printable (c : Z) : bool :=
  ((32 <=? c) && (c <? 127)) || ((161 <=? c) && (c <=? 255) && negb (c =? 173)).

Definition hex_digit (n : Z) : ascii :=
  if n <? 10 then ascii_of_Z (48 + n) else ascii_of_Z (87 + n).

Definition repr_char (quote c : Z) : string :=
  if (c =? quote) || (c =? 92) then String "\" (String (ascii_of_Z c) "")
  else if c =? 9 then "\t"
  else if c =? 10 then "\n"
  else if c =? 13 then "\r"
  else if printable c then String (ascii_of_Z c) ""
  else "\x" +:+ String (hex_digit (c / 16)) (String (hex_digit (c mod 16)) "").

Definition repr (s : string) : string :=
  let codes := map Z_of_ascii (list_ascii_of_string s) in
  let quote :=
    if existsb (Z.eqb 39) codes && negb (existsb (Z.eqb 34) codes) then 34 else 39 in
  String (ascii_of_Z quote) ""
  +:+ String.concat "" (map (repr_char quote) codes)
  +:+ String (ascii_of_Z quote) "".

End PyRepr.

(** ** [int(s)] for a [str], base 10

    White space around the number is dropped (tab to carriage return,
    the space, and U+0085 and U+00A0), a sign may lead, and the digits may
    be separated by single underscores.  The run of digits is scanned
    first: more than 4300 digits are refused before what follows them is
    looked at.  The text of an invalid literal is shown by its [repr],
    cut at 200 characters. *)

Module PyInt.

Definition is_space (c : Z) : bool :=
  ((9 <=? c) && (c <=? 13)) || (c =? 32) || (c =? 133) || (c =? 160).

Definition is_digit (c : Z) : bool := (48 <=? c) && (c <=? 57).

Fixpoint lstrip (l : list Z) : list Z :=
  match l with
  | c :: rest => if is_space c then lstrip rest else l
  | [] => []
  end.

(** The scan of the digits and underscores: the value, the number of
    digits, whether an underscore came last, and what is left; none when
    two underscores meet. *)
Fixpoint scan (l : list Z) (acc digits : Z) (after_underscore : bool)
    : option (Z * Z * bool * list Z) :=
  match l with
  | c :: rest =>
      if is_digit c then scan rest (10 * acc + (c - 48)) (digits + 1) false
      else if c =? 95 then
        if after_underscore then None else scan rest acc digits true
      else Some (acc, digits, after_underscore, l)
  | [] => Some (acc, digits, after_underscore, [])
  end.

Definition invalid_literal (s : string) : Exn :=
  Exception "ValueError"
    ("invalid literal for int() with base 10: "
     +:+ String.substring 0 200 (PyRepr.repr s)).

Definition too_many_digits (n : Z) : Exn :=
  Exception "ValueError"
    ("Exceeds the limit (4300 digits) for integer string conversion: value has "
     +:+ str_of_int n
     +:+ " digits; use sys.set_int_max_str_digits() to increase the limit").

Definition int (s : string) : Result Z :=
  let l := lstrip (map Z_of_ascii (list_ascii_of_string s)) in
  let '(sign, l) :=
    match l with
    | 43 :: rest => (1, rest)
    | 45 :: rest => (-1, rest)
    | _ => (1, l)
    end in
  match l with
  | 95 :: _ => Raise (invalid_literal s)
  | _ =>
      match scan l 0 0 false with
      | None => Raise (invalid_literal s)
      | Some (acc, digits, after_underscore, rest) =>
          if after_underscore then Raise (invalid_literal s)
          else if 4300 <? digits then Raise (too_many_digits digits)
          else if digits =? 0 then Raise (invalid_literal s)
          else
            match lstrip rest with
            | [] => Return (sign * acc)
            | _ => Raise (invalid_literal s)
            end
      end
  end.

End PyInt.

(** ** Libraries outside the program *)

(** Pillow, as far as the program uses it.  [Image_open] takes the
    content of the file or stream it is given; [Image_save img fmt] gives
    the bytes that [img.save(path, fmt)] writes. *)
Class PIL := {
  Image : Type;
  Image_open : list byte -> Result Image;
  Image_mode : Image -> string;
  Image_convert : Image -> string -> Result Image;
  Image_copy : Image -> Result Image;
  Image_save : Image -> string -> Result (list byte)
}.

Section Server.

Context `{PIL}.

(** An item of the [contents] list sent to the model. *)
Inductive ContentItem :=
| CImage (img : Image)
| CText (s : string).

(** A constructed [genai.Client]: what [client.models.generate_content]
    answers to a model name and a contents list. *)
Record Client := {
  generate_content : string -> list ContentItem -> Result GenerateContentResponse
}.

(** [genai.Client(api_key=...)] *)
Class GenAI := { genai_Client : string -> Result Client }.

Context `{GenAI}.

(** ** The world

    The environment variables, the files by path, the clock (moved by
    the outside only, so that a handler reads one time throughout), the
    globals [client] and [reference_images], and the requests sent to the
    service so far, oldest first. *)

Record World := {
  environ : gmap string string;
  disk : gmap string (list byte);
  clock : datetime;
  client : option Client;
  reference_images : list Image;
  upstream_calls : list (string * list ContentItem)
}.

Definition set_client (c : option Client) (w : World) : World :=
  {| environ := environ w; disk := disk w; clock := clock w; client := c;
     reference_images := reference_images w; upstream_calls := upstream_calls w |}.

Definition set_reference_images (l : list Image) (w : World) : World :=
  {| environ := environ w; disk := disk w; clock := clock w; client := client w;
     reference_images := l; upstream_calls := upstream_calls w |}.

Definition write_file (path : string) (content : list byte) (w : World) : World :=
  {| environ := environ w; disk := <[path := content]> (disk w); clock := clock w;
     client := client w; reference_images := reference_images w;
     upstream_calls := upstream_calls w |}.

Definition record_call (model : string) (contents : list ContentItem) (w : World) : World :=
  {| environ := environ w; disk := disk w; clock := clock w; client := client w;
     reference_images := reference_images w;
     upstream_calls := upstream_calls w ++ [(model, contents)] |}.

(** [os.getenv(name)] *)
Definition getenv (name : string) (w : World) : option string := environ w !! name.

(** The truth value of [os.getenv(name)]: set and not empty. *)
Definition getenv_truthy (name : string) (w : World) : bool :=
  match getenv name w with
  | Some v => negb (String.eqb v "")
  | None => false
  end.

(** ** [init_genai] *)

Definition init_genai : M World bool :=
  w <- Monad.get ;;
  match getenv "GEMINI_API_KEY" w with
  | None => Monad.ret false
  | Some api_key =>
      if String.eqb api_key "" then Monad.ret false
      else
        Monad.try_except
          (c <- Monad.lift (genai_Client api_key) ;;
           Monad.modify (set_client (Some c)) ;;;
           Monad.ret true)
          (fun _ => Monad.ret false)
  end.

(** ** [load_reference_images] *)

Definition ref_paths : list string :=
  [ path_join REFERENCE_FOLDER "reference-avatar-2.png";
    path_join REFERENCE_FOLDER "reference-avatar-3.png";
    path_join REFERENCE_FOLDER "reference-image-6.png" ].

(** [img.convert('RGB')] when the mode is another one. *)
Definition to_RGB (img : Image) : Result Image :=
  if negb (String.eqb (Image_mode img) "RGB") then Image_convert img "RGB"
  else Return img.

Definition load_reference_image (ref_path : string) : M World unit :=
  Monad.try_except
    (w <- Monad.get ;;
     match disk w !! ref_path with
     | Some content =>
         img <- Monad.lift (Image_open content) ;;
         img <- Monad.lift (to_RGB img) ;;
         cp <- Monad.lift (Image_copy img) ;;
         Monad.modify (fun w => set_reference_images (reference_images w ++ [cp]) w)
     | None => Monad.ret tt
     end)
    (fun _ => Monad.ret tt).

Definition load_reference_images : M World unit :=
  Monad.modify (set_reference_images []) ;;;
  Monad.for_each ref_paths load_reference_image.

(** ** [convert_to_notion_style] *)

(** The call to the service: the request is sent, then the service answers
    or fails. *)
Definition models_generate_content (c : Client) (model : string)
    (contents : list ContentItem) : M World GenerateContentResponse :=
  Monad.modify (record_call model contents) ;;;
  Monad.lift (generate_content c model contents).

(** The image built from the first payload. *)
Definition image_of_payload (image_data : PyData) : M World (option Image) :=
  match image_data with
  | PyBytes b =>
      generated_image <- Monad.lift (Image_open b) ;;
      Monad.ret (Some generated_image)
  | PyStr s =>
      decoded_data <- Monad.lift (base64.b64decode s) ;;
      generated_image <- Monad.lift (Image_open decoded_data) ;;
      Monad.ret (Some generated_image)
  | PyNone => Monad.ret None
  end.

Definition convert_to_notion_style (user_image : Image) : M World (option Image) :=
  w <- Monad.get ;;
  match client w with
  | None => Monad.raise (Exception "Exception" "GenAI client not initialized")
  | Some c =>
      Monad.try_except
        (let contents :=
           (map CImage (reference_images w) ++ [CImage user_image] ++ [CText prompt]) in
         response <- models_generate_content c MODEL contents ;;
         ps <- Monad.lift (response_parts response) ;;
         let image_parts := inline_payloads ps in
         match image_parts with
         | image_data :: _ =>
             Monad.try_except (image_of_payload image_data)
                              (fun _ => Monad.ret None)
         | [] => Monad.ret None
         end)
        (fun e => Monad.raise e)
  end.

(** ** The routes *)

Definition index : M World Response :=
  w <- Monad.get ;;
  match disk w !! path_join "public" "index.html" with
  | Some page => Monad.ret {| status := 200; body := FileBody page |}
  | None => Monad.ret {| status := 404; body := NotFoundPage |}
  end.

Definition health_check : M World Response :=
  w <- Monad.get ;;
  Monad.ret (jsonify (JDict
    [ ("status", JStr "OK");
      ("timestamp", JStr (isoformat (clock w)));
      ("genai_initialized", JBool (bool_decide (is_Some (client w))));
      ("reference_images_loaded", JInt (Z.of_nat (length (reference_images w))));
      ("api_key_configured", JBool (getenv_truthy "GEMINI_API_KEY" w)) ])).

(** The body of the inner [try] of [convert_image]. *)
Definition process_upload (file : FileStorage) : M World Response :=
  user_image <- Monad.lift (Image_open (stream file)) ;;
  user_image <- Monad.lift (to_RGB user_image) ;;
  generated_image <- convert_to_notion_style user_image ;;
  match generated_image with
  | None => Monad.ret (jsonify_status (error_body "Failed to generate avatar") 500)
  | Some generated_image =>
      w <- Monad.get ;;
      let timestamp := strftime_compact (clock w) in
      let filename := "notion_avatar_" +:+ timestamp +:+ ".png" in
      let filepath := path_join UPLOAD_FOLDER filename in
      png <- Monad.lift (Image_save generated_image "PNG") ;;
      Monad.modify (write_file filepath png) ;;;
      Monad.ret (jsonify (JDict
        [ ("success", JBool true);
          ("message", JStr "Image converted successfully");
          ("results", JList [ JDict
             [ ("fileName", JStr filename);
               ("filePath", JStr ("/outputs/" +:+ filename));
               ("mimeType", JStr "image/png") ] ]) ]))
  end.

Definition convert_image (files : FilesDict) : M World Response :=
  Monad.try_except
    (w <- Monad.get ;;
     match client w with
     | None => Monad.ret (jsonify_status (error_body "GenAI client not initialized") 500)
     | Some _ =>
         match files_get "image" files with
         | None => Monad.ret (jsonify_status (error_body "No image file uploaded") 400)
         | Some file =>
             if String.eqb (filename file) "" then
               Monad.ret (jsonify_status (error_body "No file selected") 400)
             else if negb (allowed_file (filename file)) then
               Monad.ret (jsonify_status (error_body
                 "Invalid file type. Please upload PNG, JPG, JPEG, GIF, BMP, or WebP") 400)
             else
               let file_size := Z.of_nat (length (stream file)) in
               if MAX_FILE_SIZE <? file_size then
                 Monad.ret (jsonify_status (error_body
                   "File too large. Maximum size is 10MB") 400)
               else
                 Monad.try_except (process_upload file)
                   (fun e => Monad.ret (jsonify_status (error_body
                      ("Error processing image: " +:+ exn_str e)) 500))
         end
     end)
    (fun _ => Monad.ret (jsonify_status (error_body "Internal server error") 500)).

Definition serve_output (name : string) : M World Response :=
  w <- Monad.get ;;
  match disk w !! path_join UPLOAD_FOLDER name with
  | Some content => Monad.ret {| status := 200; body := FileBody content |}
  | None => Monad.ret {| status := 404; body := NotFoundPage |}
  end.

Definition handle (r : Request) : M World Response :=
  match r with
  | GET_index => index
  | GET_health => health_check
  | POST_convert files => convert_image files
  | GET_outputs name => serve_output name
  end.

(** ** [__main__] *)

(** How the start-up ends: [exit(code)], or [app.run] on a host and port.
    An exception that nothing catches ends it as a raise. *)
Inductive Startup :=
| Exit (code : Z)
| Serving (host : string) (port : Z).

Definition main : M World Startup :=
  ok <- init_genai ;;
  if negb ok then Monad.ret (Exit 1)
  else
    load_reference_images ;;;
    w <- Monad.get ;;
    port <- Monad.lift
      (match getenv "FLASK_PORT" w with
       | Some v => PyInt.int v
       | None => Return 5000
       end) ;;
    Monad.ret (Serving "0.0.0.0" port).

(** ** The running server *)

(** The world moves by a handled request, or by the outside (the clock,
    the disk, the environment), which has no hold on the module globals
    and sends nothing to the service. *)
Inductive step : World -> World -> Prop :=
| step_request (r : Request) (w : World) :
    step w (snd (handle r w))
| step_outside (w w' : World) :
    client w' = client w ->
    reference_images w' = reference_images w ->
    upstream_calls w' = upstream_calls w ->
    step w w'.

Inductive reachable (w0 : World) : World -> Prop :=
| reachable_start : reachable w0 w0
| reachable_step (w w' : World) :
    reachable w0 w -> step w w' -> reachable w0 w'.

(** ** Readings used in the statements *)

(** What the converter does with a payload: the image opened from it,
    or nothing when decoding or opening raises. *)
Definition payload_image (image_data : PyData) : option Image :=
  match image_data with
  | PyBytes b =>
      match Image_open b with Return img => Some img | Raise _ => None end
  | PyStr s =>
      match base64.b64decode s with
      | Return decoded =>
          match Image_open decoded with Return img => Some img | Raise _ => None end
      | Raise _ => None
      end
  | PyNone => None
  end.

(** The contents list of a conversion. *)
Definition request_contents (w : World) (user_image : Image) : list ContentItem :=
  (map CImage (reference_images w) ++ [CImage user_image] ++ [CText prompt]).

(** The name of the output file written at time [d], and the body of
    the success response for it. *)
Definition output_name (d : datetime) : string :=
  "notion_avatar_" +:+ strftime_compact d +:+ ".png".

Definition success_response (name : string) : Response :=
  jsonify (JDict
    [ ("success", JBool true);
      ("message", JStr "Image converted successfully");
      ("results", JList [ JDict
         [ ("fileName", JStr name);
           ("filePath", JStr ("/outputs/" +:+ name));
           ("mimeType", JStr "image/png") ] ]) ]).

Definition error_response (msg : string) (code : Z) : Response :=
  jsonify_status (error_body msg) code.

(** The inner [try] of [convert_image] with its handler: what a request
    that passed validation is answered with. *)
Definition processed (file : FileStorage) : M World Response :=
  Monad.try_except (process_upload file)
    (fun e => Monad.ret (error_response ("Error processing image: " +:+ exn_str e) 500)).

(** The reference image that a path gives on the files [files]: none
    when the file is missing or when opening, converting or copying it
    raises. *)
Definition loadable (files : gmap string (list byte)) (ref_path : string)
    : option Image :=
  match files !! ref_path with
  | Some content =>
      match Image_open content with
      | Return img =>
          match to_RGB img with
          | Return rgb =>
              match Image_copy rgb with
              | Return cp => Some cp
              | Raise _ => None
              end
          | Raise _ => None
          end
      | Raise _ => None
      end
  | None => None
  end.

Definition loaded_references (files : gmap string (list byte)) : list Image :=
  omap (loadable files) ref_paths.

End Server.

(** ** Readings of the clock *)

(** The ranges of the fields of a Python [datetime] with a four-digit
    year. *)
Definition valid_datetime (d : datetime) : Prop :=
  1000 <= year d <= 9999 /\ 1 <= month d <= 12 /\ 1 <= day d <= 31
  /\ 0 <= hour d <= 23 /\ 0 <= minute d <= 59 /\ 0 <= second d <= 59.

(** Two times in the same second. *)
Definition same_second (d1 d2 : datetime) : Prop :=
  year d1 = year d2 /\ month d1 = month d2 /\ day d1 = day d2
  /\ hour d1 = hour d2 /\ minute d1 = minute d2 /\ second d1 = second d2.

(** * A sample deployment

    A small image codec and a scripted service, to run the server on
    concrete requests. *)

Module Sample.

(** An image file of the sample codec: a format byte (P for PNG, J for
    JPEG), a mode byte (R for RGB, L for greyscale), then the pixels. *)
Record image := { mode : string; pixels : list byte }.

Definition unidentified : Exn :=
  Exception "PIL.UnidentifiedImageError" "cannot identify image file".

Definition open (content : list byte) : Result image :=
  match content with
  | fmt :: m :: px =>
      if Byte.eqb fmt "P" || Byte.eqb fmt "J" then
        if Byte.eqb m "R" then Return {| mode := "RGB"; pixels := px |}
        else if Byte.eqb m "L" then Return {| mode := "L"; pixels := px |}
        else Raise unidentified
      else Raise unidentified
  | _ => Raise unidentified
  end.

Definition convert (img : image) (m : string) : Result image :=
  Return {| mode := m; pixels := pixels img |}.

Definition save (img : image) (fmt : string) : Result (list byte) :=
  if String.eqb fmt "PNG" then
    Return ("P"%byte :: (if String.eqb (mode img) "RGB" then "R" else "L")%byte
              :: pixels img)
  else Raise (Exception "KeyError" fmt).

Definition codec : PIL :=
  {| Image := image; Image_open := open; Image_mode := mode;
     Image_convert := convert; Image_copy := Return; Image_save := save |}.

(** A client whose service gives the same answer to every request. *)
Definition scripted (answer : Result GenerateContentResponse) : @Client codec :=
  {| generate_content := fun _ _ => answer |}.

Definition text_part (s : string) : Part :=
  {| inline_data := None; text := Some s |}.
Definition image_part (d : PyData) : Part :=
  {| inline_data := Some {| data := d |}; text := None |}.
Definition response_of (ps : list Part) : GenerateContentResponse :=
  {| candidates := Some [ {| content := Some {| parts := Some ps |} |} ] |}.

(** The service of the sample: every client it hands out answers with
    one PNG payload. *)
Definition png_payload : list byte := ["P"; "R"; "1"; "2"; "3"]%byte.
Definition jpeg_payload : list byte := ["J"; "R"; "1"; "2"; "3"]%byte.

Definition service : @GenAI codec :=
  {| genai_Client := fun _ =>
       Return (scripted (Return (response_of [image_part (PyBytes png_payload)]))) |}.

Definition noon : datetime :=
  {| year := 2025; month := 9; day := 3; hour := 12; minute := 30; second := 5;
     microsecond := 0 |}.

Definition ref_image (tag : byte) : list byte := ["P"; "R"; tag]%byte.

Definition full_disk : gmap string (list byte) :=
  {[ "public/reference-avatar-2.png" := ref_image "a";
     "public/reference-avatar-3.png" := ref_image "b";
     "public/reference-image-6.png" := ref_image "c" ]}.

(** The world before start-up, with and without the credential. *)
Definition cold (env : gmap string string) (files : gmap string (list byte))
    : @World codec :=
  {| environ := env; disk := files; clock := noon; client := None;
     reference_images := []; upstream_calls := [] |}.

(** A serving world with the three references loaded and the given client. *)
Definition warm (c : @Client codec) : @World codec :=
  {| environ := {[ "GEMINI_API_KEY" := "secret" ]}; disk := full_disk; clock := noon;
     client := Some c;
     reference_images :=
       [ {| mode := "RGB"; pixels := ["a"%byte] |};
         {| mode := "RGB"; pixels := ["b"%byte] |};
         {| mode := "RGB"; pixels := ["c"%byte] |} ];
     upstream_calls := [] |}.

Definition upload (name : string) (content : list byte) : FilesDict :=
  [ ("image", {| filename := name; stream := content |}) ].

Definition photo : list byte := ["J"; "L"; "9"; "9"]%byte.

(** What [photo] opens and converts to. *)
Definition portrait : image := {| mode := "RGB"; pixels := ["9"; "9"]%byte |}.

(** Answers of the service. *)
Definition mixed_answer : GenerateContentResponse :=
  response_of [ text_part "Here is your avatar";
                image_part (PyStr "SlIxMjM=");
                image_part (PyBytes png_payload) ].
Definition png_answer : GenerateContentResponse :=
  response_of [ image_part (PyBytes png_payload) ].
Definition jpeg_answer : GenerateContentResponse :=
  response_of [ image_part (PyBytes jpeg_payload) ].
Definition text_answer : GenerateContentResponse :=
  response_of [ text_part "I can only describe this picture" ].
Definition outage : Exn := Exception "ServerError" "503 UNAVAILABLE".

(** An upload of one byte more than the limit. *)
Definition oversized : list byte := repeat "0"%byte (Z.to_nat (MAX_FILE_SIZE + 1)).

(** The name of the file written at [noon]. *)
Definition noon_name : string := "notion_avatar_20250903_123005.png".

(** Serving worlds, one for each answer. *)
Definition w_mixed : @World codec := warm (scripted (Return mixed_answer)).
Definition w_png : @World codec := warm (scripted (Return png_answer)).
Definition w_jpeg : @World codec := warm (scripted (Return jpeg_answer)).
Definition w_text : @World codec := warm (scripted (Return text_answer)).
Definition w_down : @World codec := warm (scripted (Raise outage)).

(** Worlds before start-up. *)
Definition w_no_key : @World codec := cold ∅ full_disk.
Definition w_key : @World codec := cold {[ "GEMINI_API_KEY" := "secret" ]} full_disk.
Definition w_key_port : @World codec :=
  cold {[ "GEMINI_API_KEY" := "secret"; "FLASK_PORT" := "8080" ]} full_disk.
Definition w_two_refs : @World codec :=
  cold {[ "GEMINI_API_KEY" := "secret" ]}
       (delete "public/reference-avatar-3.png" full_disk).

(** The world the start-up with the credential leaves. *)
Definition w_started : @World codec := snd (@main codec service w_key).

(** More inputs: an upload that is no image, answers that cannot be
    used, a port that is no number, and a later moment of the same
    second. *)
Definition scribble : list byte := ["n"; "o"]%byte.

Definition empty_answer : GenerateContentResponse := {| candidates := Some [] |}.
Definition bad_text_answer : GenerateContentResponse :=
  response_of [ image_part (PyStr "A"); image_part (PyBytes png_payload) ].
Definition encoded_answer : GenerateContentResponse :=
  response_of [ image_part (PyStr (base64.b64encode png_payload)) ].

Definition w_empty : @World codec := warm (scripted (Return empty_answer)).
Definition w_bad_text : @World codec := warm (scripted (Return bad_text_answer)).
Definition w_encoded : @World codec := warm (scripted (Return encoded_answer)).

Definition w_bad_port : @World codec :=
  cold {[ "GEMINI_API_KEY" := "secret"; "FLASK_PORT" := "http" ]} full_disk.

Definition later : datetime :=
  {| year := 2025; month := 9; day := 3; hour := 12; minute := 30; second := 5;
     microsecond := 250000 |}.

(** The world [w] when the clock shows [d] and the client is [c]. *)
Definition moved (d : datetime) (c : @Client codec) (w : @World codec)
    : @World codec :=
  {| environ := environ w; disk := disk w; clock := d; client := Some c;
     reference_images := reference_images w; upstream_calls := upstream_calls w |}.

(** The sample after a first conversion, and a little later. *)
Definition w_once : @World codec :=
  snd (@convert_image codec (upload "me.jpg" photo) w_png).
Definition other_payload : list byte := ["P"; "L"; "7"; "8"]%byte.
Definition other_answer : GenerateContentResponse :=
  response_of [ image_part (PyBytes other_payload) ].
Definition w_once_later : @World codec :=
  moved later (scripted (Return other_answer)) w_once.

End Sample.

(** * Properties *)

(** ** Strings *)

Section StrFacts.

Lemma contains_rsplit_last c s :
  Str.contains c s = true <-> exists pre post, Str.rsplit_last c s = Some (pre, post).
Proof.
  induction s as [|a s IH]; simpl.
  - split; [discriminate | intros (? & ? & ?); discriminate].
  - destruct (Str.rsplit_last c s) as [[pre post]|].
    + split; [eauto|]. intros _. apply orb_true_iff. right. apply IH. eauto.
    + destruct (Ascii.eqb a c); simpl.
      * split; eauto.
      * rewrite IH. split; intros (? & ? & ?); discriminate.
Qed.

Lemma rsplit_last_None c s :
  Str.contains c s = false -> Str.rsplit_last c s = None.
Proof.
  intros Hc. destruct (Str.rsplit_last c s) as [[pre post]|] eqn:E; [|done].
  assert (Str.contains c s = true) by (apply contains_rsplit_last; eauto).
  congruence.
Qed.

Lemma rsplit_last_sound c s pre post :
  Str.rsplit_last c s = Some (pre, post) ->
  s = pre +:+ String c post /\ Str.contains c post = false.
Proof.
  revert pre. induction s as [|a s IH]; intros pre; simpl; [done|].
  destruct (Str.rsplit_last c s) as [[pre' post']|] eqn:E.
  - intros [= <- <-]. destruct (IH pre' eq_refl) as [-> Hc]. by split.
  - destruct (Ascii.eqb_spec a c) as [->|Hne]; [|done].
    intros [= <- <-]. split; [done|].
    destruct (Str.contains c s) eqn:Hc; [|done].
    apply contains_rsplit_last in Hc as (? & ? & ?). congruence.
Qed.

Lemma rsplit_last_complete c pre post :
  Str.contains c post = false ->
  Str.rsplit_last c (pre +:+ String c post) = Some (pre, post).
Proof.
  intros Hc. induction pre as [|b pre IH]; simpl.
  - by rewrite (rsplit_last_None _ _ Hc), Ascii.eqb_refl.
  - by rewrite IH.
Qed.

(** Behind ['.' in filename] the split has exactly two parts. *)
Lemma rsplit1_length c s :
  Str.contains c s = true -> length (Str.rsplit1 c s) = 2%nat.
Proof.
  intros (pre & post & E)%contains_rsplit_last. unfold Str.rsplit1. by rewrite E.
Qed.

Lemma contains_app_dot c stem ext :
  Str.contains c (stem +:+ String c ext) = true.
Proof.
  induction stem as [|a stem IH]; simpl.
  - by rewrite Ascii.eqb_refl.
  - rewrite IH. apply orb_true_r.
Qed.

(** The name is accepted exactly when it ends in a dot and a dot-free
    suffix whose lower-case form is on the list. *)
Lemma allowed_file_true_iff name :
  allowed_file name = true <->
  exists stem ext, name = stem +:+ "." +:+ ext /\ Str.contains "." ext = false
                   /\ Str.lower ext ∈ ALLOWED_EXTENSIONS.
Proof.
  unfold allowed_file. rewrite andb_true_iff, bool_decide_eq_true. split.
  - intros [(pre & post & E)%contains_rsplit_last Hin].
    unfold Str.rsplit1 in Hin. rewrite E in Hin. simpl in Hin.
    apply rsplit_last_sound in E as [-> Hc]. by exists pre, post.
  - intros (stem & ext & -> & Hc & Hin).
    change (stem +:+ "." +:+ ext) with (stem +:+ String "." ext). split.
    + apply contains_app_dot.
    + unfold Str.rsplit1. by rewrite (rsplit_last_complete _ stem ext Hc).
Qed.

Lemma allowed_file_false_iff name :
  allowed_file name = false <->
  forall stem ext, name = stem +:+ "." +:+ ext -> Str.contains "." ext = false ->
                   Str.lower ext ∉ ALLOWED_EXTENSIONS.
Proof.
  rewrite <- not_true_iff_false, allowed_file_true_iff. split.
  - intros Hn stem ext -> Hc Hin. apply Hn. by exists stem, ext.
  - intros Hall (stem & ext & -> & Hc & Hin). by apply (Hall stem ext).
Qed.

(** C9: the extension check looks only at what follows the last dot: a
    name without a dot is rejected, a name [stem.ext] with a dot-free
    [ext] is accepted exactly when the lower-case [ext] is on the list;
    so ["png"] is rejected, ["a.exe.png"] accepted and ["a.png.exe"]
    rejected. *)
Theorem allowed_file_last_suffix :
  (forall name, Str.contains "." name = false -> allowed_file name = false)
  /\ (forall stem ext, Str.contains "." ext = false ->
        allowed_file (stem +:+ "." +:+ ext)
        = bool_decide (Str.lower ext ∈ ALLOWED_EXTENSIONS))
  /\ allowed_file "png" = false
  /\ allowed_file "a.exe.png" = true
  /\ allowed_file "a.png.exe" = false.
Proof.
  split; [|split; [|by vm_compute]].
  - intros name Hc. unfold allowed_file. by rewrite Hc.
  - intros stem ext Hc. unfold allowed_file.
    change (stem +:+ "." +:+ ext) with (stem +:+ String "." ext).
    rewrite contains_app_dot. unfold Str.rsplit1.
    by rewrite (rsplit_last_complete _ stem ext Hc).
Qed.

End StrFacts.

(** ** The base64 round trip *)

Section Base64Facts.

Import base64.

Lemma all_pairs_spec P :
  all_pairs P = true ->
  forall x y, 0 <= x < 256 -> 0 <= y < 256 -> P x y = true.
Proof.
  unfold all_pairs. rewrite forallb_forall. intros Hall x y Hx Hy.
  assert (In x (seqZ 0 256)) as Hinx by (apply list_elem_of_In, elem_of_seqZ; lia).
  specialize (Hall x Hinx). rewrite forallb_forall in Hall.
  apply Hall, list_elem_of_In, elem_of_seqZ. lia.
Qed.

Lemma pair_ok_all : all_pairs pair_ok = true.
Proof. vm_compute. reflexivity. Qed.

Lemma pair_ok_bytes b0 b1 :
  0 <= b0 < 256 -> 0 <= b1 < 256 -> pair_ok b0 b1 = true.
Proof. apply all_pairs_spec, pair_ok_all. Qed.

Lemma sextet_spec s : sextet s = true <-> 0 <= s < 64.
Proof. unfold sextet. rewrite andb_true_iff, Z.leb_le, Z.ltb_lt. done. Qed.

Lemma table_checked :
  forallb (fun s => (table_a2b_base64 (table_b2a_base64 s) =? s)
                    && negb (table_b2a_base64 s =? BASE64_PAD)
                    && (0 <=? table_b2a_base64 s) && (table_b2a_base64 s <? 128))
          (seqZ 0 64) = true.
Proof. vm_compute. reflexivity. Qed.

Lemma table_roundtrip s :
  0 <= s < 64 ->
  table_a2b_base64 (table_b2a_base64 s) = s
  /\ (table_b2a_base64 s =? BASE64_PAD) = false
  /\ 0 <= table_b2a_base64 s < 128.
Proof.
  intros Hs. pose proof table_checked as Hall. rewrite forallb_forall in Hall.
  assert (In s (seqZ 0 64)) as Hin by (apply list_elem_of_In, elem_of_seqZ; lia).
  apply Hall in Hin.
  rewrite !andb_true_iff, negb_true_iff, Z.eqb_eq, Z.leb_le, Z.ltb_lt in Hin.
  tauto.
Qed.

(** One character of the alphabet, at each position of the quad. *)
Lemma a2b_loop_char s rest quad_pos leftchar pads bin_data :
  0 <= s < 64 ->
  a2b_loop (table_b2a_base64 s :: rest) quad_pos leftchar pads bin_data =
  if quad_pos =? 0 then a2b_loop rest 1 s 0 bin_data
  else if quad_pos =? 1 then
    a2b_loop rest 2 (Z.land s 15) 0
      (bin_data ++ [u8 (Z.lor (Z.shiftl leftchar 2) (Z.shiftr s 4))])
  else if quad_pos =? 2 then
    a2b_loop rest 3 (Z.land s 3) 0
      (bin_data ++ [u8 (Z.lor (Z.shiftl leftchar 4) (Z.shiftr s 2))])
  else a2b_loop rest 0 0 0 (bin_data ++ [u8 (Z.lor (Z.shiftl leftchar 6) s)]).
Proof.
  intros Hs. destruct (table_roundtrip s Hs) as (Ht & Hp & _).
  cbn [a2b_loop]. rewrite Hp. cbv zeta. rewrite Ht.
  by rewrite (proj2 (Z.leb_gt 64 s)) by lia.
Qed.

Lemma list_ind3 {A} (P : list A -> Prop) :
  P [] -> (forall a, P [a]) -> (forall a b, P [a; b]) ->
  (forall a b c l, P l -> P (a :: b :: c :: l)) ->
  forall l, P l.
Proof.
  intros H0 H1 H2 H3. fix IH 1.
  intros [|a [|b [|c l]]]; [exact H0 | apply H1 | apply H2 | apply H3, IH].
Qed.

Ltac use_pair b0 b1 :=
  let Hp := fresh "Hp" in
  pose proof (pair_ok_bytes b0 b1 ltac:(lia) ltac:(lia)) as Hp;
  unfold pair_ok in Hp; cbv zeta in Hp;
  rewrite !andb_true_iff, !sextet_spec, !Z.eqb_eq in Hp.

(** Decoding what the encoder wrote gives the bytes back, and the
    encoder writes ASCII only. *)
Lemma a2b_loop_b2a data :
  Forall (fun b => 0 <= b < 256) data ->
  Forall (fun c => 0 <= c < 128) (b2a data)
  /\ forall bin_data, a2b_loop (b2a data) 0 0 0 bin_data = Return (bin_data ++ data).
Proof.
  induction data as [|b0|b0 b1|b0 b1 b2 data IH] using list_ind3.
  - intros _. split; [constructor|]. intros bin_data. simpl. by rewrite app_nil_r.
  - intros [H0 _]%Forall_cons. use_pair b0 0.
    destruct Hp as (((((((((((S0 & S1) & S1') & S2) & S2') & S3) & E0) & E0') & E1)
                        & E2) & E2') & E3).
    split.
    + cbn [b2a]. repeat constructor;
        try (apply table_roundtrip; lia); done.
    + intros bin_data. cbn [b2a].
      rewrite (a2b_loop_char _ _ _ _ _ _ S0). cbn [Z.eqb].
      rewrite (a2b_loop_char _ _ _ _ _ _ S1'). cbn [Z.eqb Pos.eqb].
      rewrite E0'. reflexivity.
  - intros (H0 & [H1 _]%Forall_cons)%Forall_cons.
    use_pair b0 b1.
    destruct Hp as (((((((((((S0 & S1) & S1') & S2) & S2') & S3) & E0) & E0') & E1)
                        & E2) & E2') & E3).
    use_pair b1 0.
    destruct Hp as (((((((((((T0 & T1) & T1') & T2) & T2') & T3) & F0) & F0') & F1)
                        & F2) & F2') & F3).
    split.
    + cbn [b2a]. repeat constructor;
        try (apply table_roundtrip; lia); done.
    + intros bin_data. cbn [b2a].
      rewrite (a2b_loop_char _ _ _ _ _ _ S0). cbn [Z.eqb].
      rewrite (a2b_loop_char _ _ _ _ _ _ S1). cbn [Z.eqb Pos.eqb].
      rewrite (a2b_loop_char _ _ _ _ _ _ T2'). cbn [Z.eqb Pos.eqb].
      rewrite E0, E1, F2'. rewrite <- app_assoc. reflexivity.
  - intros (H0 & (H1 & (H2 & Hd)%Forall_cons)%Forall_cons)%Forall_cons.
    destruct (IH Hd) as [IHa IHl].
    use_pair b0 b1.
    destruct Hp as (((((((((((S0 & S1) & S1') & S2) & S2') & S3) & E0) & E0') & E1)
                        & E2) & E2') & E3).
    use_pair b1 b2.
    destruct Hp as (((((((((((T0 & T1) & T1') & T2) & T2') & T3) & F0) & F0') & F1)
                        & F2) & F2') & F3).
    split.
    + cbn [b2a]. repeat (constructor; [apply table_roundtrip; lia|]). done.
    + intros bin_data. cbn [b2a].
      rewrite (a2b_loop_char _ _ _ _ _ _ S0). cbn [Z.eqb].
      rewrite (a2b_loop_char _ _ _ _ _ _ S1). cbn [Z.eqb Pos.eqb].
      rewrite (a2b_loop_char _ _ _ _ _ _ T2). cbn [Z.eqb Pos.eqb].
      rewrite (a2b_loop_char _ _ _ _ _ _ T3). cbn [Z.eqb Pos.eqb].
      rewrite E0, E1, F2, F3, IHl. rewrite <- !app_assoc. reflexivity.
Qed.

Lemma Z_of_byte_range b : 0 <= Z_of_byte b < 256.
Proof.
  unfold Z_of_byte. pose proof (Byte.to_N_bounded b). lia.
Qed.

Lemma byte_of_Z_of_byte b : byte_of_Z (Z_of_byte b) = b.
Proof.
  unfold byte_of_Z. rewrite Z.mod_small by apply Z_of_byte_range.
  unfold Z_of_byte. by rewrite N2Z.id, Byte.of_to_N.
Qed.

Lemma Z_of_ascii_of_Z c : 0 <= c < 256 -> Z_of_ascii (ascii_of_Z c) = c.
Proof.
  intros Hc. unfold Z_of_ascii, ascii_of_Z.
  rewrite N_ascii_embedding by lia. lia.
Qed.

Lemma encode_ascii_chars l :
  Forall (fun c => 0 <= c < 128) l ->
  encode_ascii (string_of_list_ascii (map ascii_of_Z l)) = Return l.
Proof.
  intros Hl. unfold encode_ascii.
  rewrite list_ascii_of_string_of_list_ascii, map_map.
  assert (map (fun c => Z_of_ascii (ascii_of_Z c)) l = l) as ->.
  { induction Hl as [|c l Hc _ IH]; simpl; [done|].
    by rewrite IH, Z_of_ascii_of_Z by lia. }
  assert (forallb (fun c => c <? 128) l = true) as ->; [|done].
  apply forallb_forall. intros c Hin%list_elem_of_In.
  rewrite Forall_forall in Hl. apply Hl in Hin. apply Z.ltb_lt. lia.
Qed.

(** Encoding bytes and decoding the text gives the bytes back. *)
Lemma b64decode_b64encode b : b64decode (b64encode b) = Return b.
Proof.
  unfold b64decode, b64encode.
  assert (map byte_of_Z (map Z_of_byte b) = b) as Hmap.
  { induction b as [|x b IH]; simpl; [done|]. by rewrite byte_of_Z_of_byte, IH. }
  assert (Forall (fun z => 0 <= z < 256) (map Z_of_byte b)) as Hr.
  { apply Forall_map, Forall_forall. intros x _. apply Z_of_byte_range. }
  destruct (a2b_loop_b2a _ Hr) as [Hascii Hloop].
  rewrite (encode_ascii_chars _ Hascii). unfold a2b_base64.
  rewrite Hloop. simpl. by rewrite Hmap.
Qed.

End Base64Facts.

(** ** Running the handlers *)

Ltac run_monad :=
  unfold Monad.bind, Monad.ret, Monad.raise, Monad.try_except, Monad.get,
    Monad.modify, Monad.lift; simpl.

Section ServerFacts.

Context `{PIL} `{!GenAI}.

Lemma image_of_payload_run image_data (w : World) :
  Monad.try_except (image_of_payload image_data) (fun _ => Monad.ret None) w
  = (Return (payload_image image_data), w).
Proof.
  destruct image_data as [b|s|]; unfold image_of_payload; run_monad.
  - by destruct (Image_open b).
  - destruct (base64.b64decode s) as [d|e]; [|done]. by destruct (Image_open d).
  - done.
Qed.

(** The converter, run: one request goes out, and the answer decides. *)
Lemma convert_to_notion_style_run (w : World) c user_image :
  client w = Some c ->
  convert_to_notion_style user_image w =
  (match generate_content c MODEL (request_contents w user_image) with
   | Raise e => Raise e
   | Return response =>
       match response_parts response with
       | Raise e => Raise e
       | Return ps =>
           Return (match inline_payloads ps with
                   | [] => None
                   | image_data :: _ => payload_image image_data
                   end)
       end
   end,
   record_call MODEL (request_contents w user_image) w).
Proof.
  intros Hc. unfold convert_to_notion_style, models_generate_content.
  unfold Monad.bind at 1. unfold Monad.get at 1. rewrite Hc.
  fold (request_contents w user_image).
  set (w1 := record_call MODEL (request_contents w user_image) w).
  unfold Monad.try_except at 1, Monad.bind at 1, Monad.bind at 1.
  unfold Monad.modify, Monad.lift at 1. fold w1.
  destruct (generate_content c MODEL (request_contents w user_image))
    as [response|e]; [|done].
  unfold Monad.bind, Monad.lift.
  destruct (response_parts response) as [ps|e]; [|done].
  destruct (inline_payloads ps) as [|image_data rest]; [done|].
  by rewrite image_of_payload_run.
Qed.

Lemma convert_to_notion_style_uninitialised (w : World) user_image :
  client w = None ->
  convert_to_notion_style user_image w =
  (Raise (Exception "Exception" "GenAI client not initialized"), w).
Proof. intros Hc. unfold convert_to_notion_style. run_monad. by rewrite Hc. Qed.

(** The handler never lets an exception out of its inner [try]. *)
Lemma processed_returns file (w : World) :
  exists resp w', processed file w = (Return resp, w').
Proof.
  unfold processed, Monad.try_except.
  destruct (process_upload file w) as [[resp|e] w']; eauto.
Qed.

Lemma convert_image_uninitialised files (w : World) :
  client w = None ->
  convert_image files w =
  (Return (error_response "GenAI client not initialized" 500), w).
Proof. intros Hc. unfold convert_image. run_monad. by rewrite Hc. Qed.

Lemma convert_image_no_file files (w : World) c :
  client w = Some c ->
  files_get "image" files = None ->
  convert_image files w = (Return (error_response "No image file uploaded" 400), w).
Proof. intros Hc Hf. unfold convert_image. run_monad. by rewrite Hc, Hf. Qed.

Lemma convert_image_no_name files file (w : World) c :
  client w = Some c ->
  files_get "image" files = Some file ->
  filename file = "" ->
  convert_image files w = (Return (error_response "No file selected" 400), w).
Proof. intros Hc Hf Hn. unfold convert_image. run_monad. by rewrite Hc, Hf, Hn. Qed.

Lemma convert_image_bad_type files file (w : World) c :
  client w = Some c ->
  files_get "image" files = Some file ->
  filename file <> "" ->
  allowed_file (filename file) = false ->
  convert_image files w =
  (Return (error_response
     "Invalid file type. Please upload PNG, JPG, JPEG, GIF, BMP, or WebP" 400), w).
Proof.
  intros Hc Hf Hn Ha. unfold convert_image. run_monad. rewrite Hc, Hf, Ha.
  by destruct (String.eqb_spec (filename file) "").
Qed.

Lemma allowed_file_nonempty name : allowed_file name = true -> name <> "".
Proof. by intros Ha ->. Qed.

Lemma convert_image_too_large files file (w : World) c :
  client w = Some c ->
  files_get "image" files = Some file ->
  allowed_file (filename file) = true ->
  MAX_FILE_SIZE < Z.of_nat (length (stream file)) ->
  convert_image files w =
  (Return (error_response "File too large. Maximum size is 10MB" 400), w).
Proof.
  intros Hc Hf Ha Hs. unfold convert_image. run_monad. rewrite Hc, Hf, Ha.
  destruct (String.eqb_spec (filename file) "") as [E|_].
  { by apply allowed_file_nonempty in Ha. }
  simpl. by rewrite (proj2 (Z.ltb_lt _ _) Hs).
Qed.

Lemma convert_image_validated files file (w : World) c :
  client w = Some c ->
  files_get "image" files = Some file ->
  allowed_file (filename file) = true ->
  Z.of_nat (length (stream file)) <= MAX_FILE_SIZE ->
  convert_image files w = processed file w.
Proof.
  intros Hc Hf Ha Hs. unfold convert_image.
  unfold Monad.try_except at 1, Monad.bind at 1, Monad.get at 1.
  rewrite Hc, Hf, Ha.
  destruct (String.eqb_spec (filename file) "") as [E|_].
  { by apply allowed_file_nonempty in Ha. }
  simpl. rewrite (proj2 (Z.ltb_ge _ _) Hs).
  destruct (processed_returns file w) as (resp & w' & E).
  unfold processed, error_response in *. by rewrite E.
Qed.

(** A validated upload, run to its answer. *)
Lemma processed_run file u user_image (w : World) c :
  client w = Some c ->
  Image_open (stream file) = Return u ->
  to_RGB u = Return user_image ->
  processed file w =
  let w1 := record_call MODEL (request_contents w user_image) w in
  match generate_content c MODEL (request_contents w user_image) with
  | Raise e => (Return (error_response ("Error processing image: " +:+ exn_str e) 500), w1)
  | Return response =>
      match response_parts response with
      | Raise e =>
          (Return (error_response ("Error processing image: " +:+ exn_str e) 500), w1)
      | Return ps =>
          match match inline_payloads ps with
                | [] => None
                | image_data :: _ => payload_image image_data
                end with
          | None => (Return (error_response "Failed to generate avatar" 500), w1)
          | Some generated_image =>
              match Image_save generated_image "PNG" with
              | Raise e =>
                  (Return (error_response
                     ("Error processing image: " +:+ exn_str e) 500), w1)
              | Return png =>
                  (Return (success_response (output_name (clock w))),
                   write_file (path_join UPLOAD_FOLDER (output_name (clock w))) png w1)
              end
          end
      end
  end.
Proof.
  intros Hc Ho Hr. unfold processed, process_upload.
  unfold Monad.try_except at 1, Monad.bind at 1, Monad.lift at 1. rewrite Ho.
  unfold Monad.bind at 1, Monad.lift at 1. rewrite Hr.
  unfold Monad.bind at 1. rewrite (convert_to_notion_style_run w c user_image Hc).
  destruct (generate_content c MODEL (request_contents w user_image))
    as [response|e]; [|done].
  destruct (response_parts response) as [ps|e]; [|done].
  simpl. destruct (match inline_payloads ps with [] => None | d :: _ => payload_image d end)
    as [generated_image|]; [|done].
  run_monad. by destruct (Image_save generated_image "PNG").
Qed.

Lemma processed_status file (w : World) resp w' :
  processed file w = (Return resp, w') -> status resp = 200 \/ status resp = 500.
Proof.
  unfold processed, process_upload. run_monad.
  destruct (Image_open (stream file)) as [u|e]; [|intros [= <- <-]; by right].
  destruct (to_RGB u) as [user_image|e]; [|intros [= <- <-]; by right].
  destruct (convert_to_notion_style user_image w) as [[[g|]|e] w1];
    [|intros [= <- <-]; by right..].
  destruct (Image_save g "PNG") as [png|e]; intros [= <- <-]; auto.
Qed.

(** C10: the handler checks, in this order, the client, the presence of
    the file field, the file name, the extension and the size: without a
    client every request gets the 500 before anything is validated, and a
    disallowed extension gets the invalid-file-type 400 whatever the
    size. *)
Theorem convert_check_order files (w : World) :
  (client w = None ->
   convert_image files w =
   (Return (error_response "GenAI client not initialized" 500), w))
  /\ (forall c, client w = Some c ->
      (files_get "image" files = None ->
       convert_image files w =
       (Return (error_response "No image file uploaded" 400), w))
      /\ (forall file, files_get "image" files = Some file ->
          (filename file = "" ->
           convert_image files w = (Return (error_response "No file selected" 400), w))
          /\ (filename file <> "" -> allowed_file (filename file) = false ->
              convert_image files w =
              (Return (error_response
                 "Invalid file type. Please upload PNG, JPG, JPEG, GIF, BMP, or WebP"
                 400), w))
          /\ (allowed_file (filename file) = true ->
              MAX_FILE_SIZE < Z.of_nat (length (stream file)) ->
              convert_image files w =
              (Return (error_response "File too large. Maximum size is 10MB" 400), w))
          /\ (allowed_file (filename file) = true ->
              Z.of_nat (length (stream file)) <= MAX_FILE_SIZE ->
              convert_image files w = processed file w))).
Proof.
  split; [apply convert_image_uninitialised|].
  intros c Hc. split; [by apply (convert_image_no_file files w c)|].
  intros file Hf. repeat split.
  - by apply (convert_image_no_name files file w c).
  - by apply (convert_image_bad_type files file w c).
  - by apply (convert_image_too_large files file w c).
  - by apply (convert_image_validated files file w c).
Qed.

(** ** The converter and the model's answer *)

Lemma inline_payloads_none ps :
  Forall (fun p => inline_data p = None) ps -> inline_payloads ps = [].
Proof. induction 1 as [|p ps Hp _ IH]; simpl; [done|]. by rewrite Hp. Qed.

Lemma inline_payloads_first before part blob after :
  Forall (fun p => inline_data p = None) before ->
  inline_data part = Some blob ->
  inline_payloads (before ++ part :: after) = data blob :: inline_payloads after.
Proof.
  intros Hb Hp. induction Hb as [|p ps Hnone _ IH]; simpl.
  - by rewrite Hp.
  - by rewrite Hnone.
Qed.

(** C1: of the parts of the answer, taken in order, the first that
    carries inline data decides the result: bytes are opened as they
    are, a string is base64-decoded and then opened, and whatever parts
    follow play no role. *)
Theorem converter_first_payload (w : World) c user_image response
    before part blob after :
  client w = Some c ->
  generate_content c MODEL (request_contents w user_image) = Return response ->
  response_parts response = Return (before ++ part :: after) ->
  Forall (fun p => inline_data p = None) before ->
  inline_data part = Some blob ->
  inline_payloads (before ++ part :: after) = data blob :: inline_payloads after
  /\ fst (convert_to_notion_style user_image w) =
     Return (match data blob with
             | PyBytes b =>
                 match Image_open b with Return img => Some img | Raise _ => None end
             | PyStr s =>
                 match base64.b64decode s with
                 | Return decoded =>
                     match Image_open decoded with
                     | Return img => Some img
                     | Raise _ => None
                     end
                 | Raise _ => None
                 end
             | PyNone => None
             end).
Proof.
  intros Hc Hg Hps Hb Hp.
  pose proof (inline_payloads_first before part blob after Hb Hp) as Hfirst.
  split; [done|].
  rewrite (convert_to_notion_style_run w c user_image Hc), Hg, Hps, Hfirst.
  done.
Qed.

Lemma error_messages_differ msg :
  error_response ("Error processing image: " +:+ msg) 500
  <> error_response "Failed to generate avatar" 500.
Proof. discriminate. Qed.

(** C5: when the answer has its parts and none carries inline data, the
    converter returns [None] and does not raise, and [/convert] answers
    500 with "Failed to generate avatar"; when the call to the service
    raises, [/convert] answers 500 with another message, "Error
    processing image: ..." *)
Theorem converter_text_only files file u user_image (w : World) c :
  client w = Some c ->
  files_get "image" files = Some file ->
  allowed_file (filename file) = true ->
  Z.of_nat (length (stream file)) <= MAX_FILE_SIZE ->
  Image_open (stream file) = Return u ->
  to_RGB u = Return user_image ->
  (forall response ps,
     generate_content c MODEL (request_contents w user_image) = Return response ->
     response_parts response = Return ps ->
     Forall (fun p => inline_data p = None) ps ->
     fst (convert_to_notion_style user_image w) = Return None
     /\ fst (convert_image files w)
        = Return (error_response "Failed to generate avatar" 500))
  /\ (forall e,
     generate_content c MODEL (request_contents w user_image) = Raise e ->
     fst (convert_to_notion_style user_image w) = Raise e
     /\ fst (convert_image files w)
        = Return (error_response ("Error processing image: " +:+ exn_str e) 500)
     /\ error_response ("Error processing image: " +:+ exn_str e) 500
        <> error_response "Failed to generate avatar" 500).
Proof.
  intros Hc Hf Ha Hs Ho Hr.
  rewrite (convert_image_validated files file w c Hc Hf Ha Hs).
  rewrite (processed_run file u user_image w c Hc Ho Hr).
  rewrite (convert_to_notion_style_run w c user_image Hc).
  split.
  - intros response ps -> -> Hnone. by rewrite (inline_payloads_none ps Hnone).
  - intros e ->. repeat split. apply error_messages_differ.
Qed.

(** What a [/convert] request leaves behind: nothing, or the one request
    sent to the service, or that request and the output file. *)
Lemma convert_image_world files (w : World) :
  snd (convert_image files w) = w
  \/ exists user_image,
       snd (convert_image files w) = record_call MODEL (request_contents w user_image) w
       \/ exists path png,
            snd (convert_image files w)
            = write_file path png (record_call MODEL (request_contents w user_image) w).
Proof.
  destruct (client w) as [c|] eqn:Hc;
    [|left; by rewrite convert_image_uninitialised].
  destruct (files_get "image" files) as [file|] eqn:Hf;
    [|left; by rewrite (convert_image_no_file files w c)].
  destruct (String.eqb_spec (filename file) "") as [Hn|Hn];
    [left; by rewrite (convert_image_no_name files file w c)|].
  destruct (allowed_file (filename file)) eqn:Ha;
    [|left; by rewrite (convert_image_bad_type files file w c)].
  destruct (Z.lt_ge_cases MAX_FILE_SIZE (Z.of_nat (length (stream file)))) as [Hs|Hs];
    [left; by rewrite (convert_image_too_large files file w c)|].
  rewrite (convert_image_validated files file w c Hc Hf Ha Hs).
  destruct (Image_open (stream file)) as [u|e] eqn:Ho.
  2:{ left. unfold processed, process_upload. run_monad. by rewrite Ho. }
  destruct (to_RGB u) as [user_image|e] eqn:Hr.
  2:{ left. unfold processed, process_upload. run_monad. by rewrite Ho, Hr. }
  right. exists user_image.
  rewrite (processed_run file u user_image w c Hc Ho Hr). simpl.
  destruct (generate_content c MODEL (request_contents w user_image))
    as [response|e]; [|by left].
  destruct (response_parts response) as [ps|e]; [|by left].
  destruct (match inline_payloads ps with [] => None | d :: _ => payload_image d end)
    as [g|]; [|by left].
  destruct (Image_save g "PNG") as [png|e]; [|by left].
  right. eauto.
Qed.

(** C7: a conversion sends one request: the reference images in their
    loaded order, then the user image, then the instruction text; and its
    outcome waits on the answer: a failure of the service is raised on, a
    response is what the result is read from.  A [/convert] request
    sends that one request or none. *)
Theorem converter_single_request (w : World) c user_image :
  client w = Some c ->
  upstream_calls (snd (convert_to_notion_style user_image w))
  = (upstream_calls w
     ++ [(MODEL,
          map CImage (reference_images w) ++ [CImage user_image; CText prompt])])
  /\ (forall e,
      generate_content c MODEL
        (map CImage (reference_images w) ++ [CImage user_image; CText prompt])
      = Raise e ->
      fst (convert_to_notion_style user_image w) = Raise e)
  /\ (forall response ps,
      generate_content c MODEL
        (map CImage (reference_images w) ++ [CImage user_image; CText prompt])
      = Return response ->
      response_parts response = Return ps ->
      fst (convert_to_notion_style user_image w)
      = Return (match inline_payloads ps with
                | [] => None
                | image_data :: _ => payload_image image_data
                end))
  /\ (forall files,
      upstream_calls (snd (convert_image files w)) = upstream_calls w
      \/ exists image,
           upstream_calls (snd (convert_image files w))
           = (upstream_calls w
              ++ [(MODEL,
                   map CImage (reference_images w) ++ [CImage image; CText prompt])])).
Proof.
  intros Hc. rewrite (convert_to_notion_style_run w c user_image Hc).
  change (request_contents w user_image)
    with (map CImage (reference_images w) ++ [CImage user_image; CText prompt]).
  split; [done|]. split; [by intros e ->|]. split; [by intros response ps -> ->|].
  intros files.
  destruct (convert_image_world files w) as [->|(image & [->|(path & png & ->)])];
    [by left|right; by exists image..].
Qed.

(** ** Start-up *)

Lemma load_reference_image_run ref_path (w : World) :
  load_reference_image ref_path w =
  (Return tt,
   match loadable (disk w) ref_path with
   | Some cp => set_reference_images (reference_images w ++ [cp]) w
   | None => w
   end).
Proof.
  unfold load_reference_image, loadable. run_monad.
  destruct (disk w !! ref_path) as [content|]; [|done]. run_monad.
  destruct (Image_open content) as [img|e]; [|done].
  destruct (to_RGB img) as [rgb|e]; [|done].
  by destruct (Image_copy rgb).
Qed.

Lemma load_reference_images_run (w : World) :
  load_reference_images w =
  (Return tt, set_reference_images (loaded_references (disk w)) w).
Proof.
  unfold load_reference_images, loaded_references, ref_paths.
  unfold Monad.for_each, Monad.bind, Monad.modify, Monad.ret.
  rewrite !load_reference_image_run. simpl.
  destruct (loadable (disk w) (path_join REFERENCE_FOLDER "reference-avatar-2.png"));
    simpl;
    destruct (loadable (disk w) (path_join REFERENCE_FOLDER "reference-avatar-3.png"));
    simpl;
    destruct (loadable (disk w) (path_join REFERENCE_FOLDER "reference-image-6.png"));
    done.
Qed.

Lemma loaded_references_length files : (length (loaded_references files) <= 3)%nat.
Proof.
  unfold loaded_references, ref_paths. simpl.
  repeat (match goal with |- context [loadable ?f ?p] => destruct (loadable f p) end;
          simpl); lia.
Qed.

Lemma init_genai_unset (w : World) :
  getenv "GEMINI_API_KEY" w = None -> init_genai w = (Return false, w).
Proof. intros He. unfold init_genai. run_monad. by rewrite He. Qed.

Lemma init_genai_set (w : World) key c :
  getenv "GEMINI_API_KEY" w = Some key -> key <> "" ->
  genai_Client key = Return c ->
  init_genai w = (Return true, set_client (Some c) w).
Proof.
  intros He Hk Hc. unfold init_genai. run_monad. rewrite He.
  destruct (String.eqb_spec key "") as [|_]; [done|]. run_monad. by rewrite Hc.
Qed.

(** C6: without the credential in the environment, start-up ends in
    [exit(1)], a nonzero status, with the world untouched and [app.run]
    never reached; with it (and the client constructed), the server is
    run on the port read from [FLASK_PORT], 5000 when that is unset. *)
Theorem startup_credential_and_port (w : World) :
  (getenv "GEMINI_API_KEY" w = None ->
   main w = (Return (Exit 1), w) /\ 1 <> 0
   /\ forall host port, fst (main w) <> Return (Serving host port))
  /\ (forall key c,
      getenv "GEMINI_API_KEY" w = Some key -> key <> "" ->
      genai_Client key = Return c ->
      let w' := set_reference_images (loaded_references (disk w))
                  (set_client (Some c) w) in
      (getenv "FLASK_PORT" w = None ->
       main w = (Return (Serving "0.0.0.0" 5000), w'))
      /\ (forall v port, getenv "FLASK_PORT" w = Some v -> PyInt.int v = Return port ->
          main w = (Return (Serving "0.0.0.0" port), w'))).
Proof.
  split.
  - intros He.
    assert (main w = (Return (Exit 1), w)) as ->.
    { unfold main, Monad.bind. by rewrite (init_genai_unset w He). }
    done.
  - intros key c He Hk Hc w'. unfold main, Monad.bind.
    rewrite (init_genai_set w key c He Hk Hc). simpl.
    rewrite load_reference_images_run.
    unfold Monad.get, Monad.lift, Monad.ret.
    change (set_reference_images
              (loaded_references (disk (set_client (Some c) w)))
              (set_client (Some c) w)) with w'.
    change (getenv "FLASK_PORT" w') with (getenv "FLASK_PORT" w).
    split.
    + by intros ->.
    + intros v port -> Hp. by rewrite Hp.
Qed.

(** A start-up that reaches [app.run] has built the client and loaded
    the references from the disk it found. *)
Lemma main_serving (w : World) host port :
  fst (main w) = Return (Serving host port) ->
  exists c, snd (main w)
            = set_reference_images (loaded_references (disk w)) (set_client (Some c) w).
Proof.
  unfold main, Monad.bind. unfold init_genai. run_monad.
  destruct (getenv "GEMINI_API_KEY" w) as [key|]; [|done].
  destruct (String.eqb key ""); [done|]. run_monad.
  destruct (genai_Client key) as [c|e]; [|done]. simpl.
  rewrite load_reference_images_run.
  intros _. exists c.
  by destruct (match getenv "FLASK_PORT" _ with Some v => PyInt.int v | None => _ end).
Qed.

(** ** The reference images *)

Lemma handle_globals r (w : World) :
  client (snd (handle r w)) = client w
  /\ reference_images (snd (handle r w)) = reference_images w.
Proof.
  destruct r as [| |files|name]; simpl.
  - unfold index. run_monad. by destruct (disk w !! _).
  - done.
  - by destruct (convert_image_world files w)
      as [->|(image & [->|(path & png & ->)])].
  - unfold serve_output. run_monad. by destruct (disk w !! _).
Qed.

Lemma step_globals (w w' : World) :
  step w w' -> client w' = client w /\ reference_images w' = reference_images w.
Proof. destruct 1 as [r w|w w' Hc Hr _]; [apply handle_globals|done]. Qed.

Lemma reachable_globals (w0 w : World) :
  reachable w0 w -> client w = client w0 /\ reference_images w = reference_images w0.
Proof.
  induction 1 as [|w w' _ [IHc IHr] Hstep]; [done|].
  apply step_globals in Hstep as [Hc Hr]. split; congruence.
Qed.

(** ** Validation in the running server *)

(** A server that [__main__] has started holds its client for good. *)
Lemma serving_client (w0 w : World) host port :
  fst (main w0) = Return (Serving host port) ->
  reachable (snd (main w0)) w ->
  exists c, client w = Some c.
Proof.
  intros (c & Hw1)%main_serving [Hc _]%reachable_globals.
  exists c. by rewrite Hc, Hw1.
Qed.

(** C3: in a server started by [__main__], an upload whose extension,
    the part after the last dot compared without regard to case, is not
    on the allow-list is answered with a 400, and the world is left as it
    was: no request went to the model service. *)
Theorem convert_rejects_bad_extension (w0 w : World) host port files file :
  fst (main w0) = Return (Serving host port) ->
  reachable (snd (main w0)) w ->
  files_get "image" files = Some file ->
  (forall stem ext, filename file = stem +:+ "." +:+ ext ->
     Str.contains "." ext = false -> Str.lower ext ∉ ALLOWED_EXTENSIONS) ->
  exists resp,
    convert_image files w = (Return resp, w)
    /\ status resp = 400
    /\ upstream_calls (snd (convert_image files w)) = upstream_calls w
    /\ (filename file <> "" ->
        resp = error_response
          "Invalid file type. Please upload PNG, JPG, JPEG, GIF, BMP, or WebP" 400).
Proof.
  intros Hmain Hreach Hf Hext%allowed_file_false_iff.
  destruct (serving_client w0 w host port Hmain Hreach) as [c Hc].
  destruct (String.eqb_spec (filename file) "") as [Hn|Hn].
  - rewrite (convert_image_no_name files file w c Hc Hf Hn).
    eexists. repeat split. by intros [].
  - rewrite (convert_image_bad_type files file w c Hc Hf Hn Hext).
    eexists. by repeat split.
Qed.

(** C4: the threshold is 10 * 1024 * 1024 bytes; in a server started by
    [__main__], an upload with an allow-listed extension passes
    validation when its size is at most that, and is answered with the
    file-too-large 400 when it is more; any upload over the threshold is
    answered with a 400 whatever its extension. *)
Theorem convert_size_threshold (w0 w : World) host port files file :
  fst (main w0) = Return (Serving host port) ->
  reachable (snd (main w0)) w ->
  files_get "image" files = Some file ->
  MAX_FILE_SIZE = 10 * 1024 * 1024
  /\ (allowed_file (filename file) = true ->
      Z.of_nat (length (stream file)) <= MAX_FILE_SIZE ->
      convert_image files w = processed file w
      /\ exists resp, fst (convert_image files w) = Return resp /\ status resp <> 400)
  /\ (allowed_file (filename file) = true ->
      MAX_FILE_SIZE < Z.of_nat (length (stream file)) ->
      convert_image files w =
      (Return (error_response "File too large. Maximum size is 10MB" 400), w))
  /\ (MAX_FILE_SIZE < Z.of_nat (length (stream file)) ->
      exists resp, convert_image files w = (Return resp, w) /\ status resp = 400).
Proof.
  intros Hmain Hreach Hf.
  destruct (serving_client w0 w host port Hmain Hreach) as [c Hc].
  split; [done|]. split; [|split].
  - intros Ha Hs. rewrite (convert_image_validated files file w c Hc Hf Ha Hs).
    split; [done|].
    destruct (processed_returns file w) as (resp & w' & E). rewrite E.
    exists resp. split; [done|].
    destruct (processed_status _ _ _ _ E) as [-> | ->]; done.
  - intros Ha Hs. by apply (convert_image_too_large files file w c).
  - intros Hs. destruct (allowed_file (filename file)) eqn:Ha.
    + rewrite (convert_image_too_large files file w c Hc Hf Ha Hs). eauto.
    + destruct (String.eqb_spec (filename file) "") as [Hn|Hn].
      * rewrite (convert_image_no_name files file w c Hc Hf Hn). eauto.
      * rewrite (convert_image_bad_type files file w c Hc Hf Hn Ha). eauto.
Qed.

(** C8, as the code has it: the reference set holds the images of those
    of the three fixed files that exist and load, in order: three at
    most, exactly three when all of them load.  It is set once, at
    start-up; no request changes it afterwards, and every conversion
    sends it as it was loaded. *)
Theorem reference_images_fixed (w : World) host port :
  fst (main w) = Return (Serving host port) ->
  let w1 := snd (main w) in
  reference_images w1 = omap (loadable (disk w)) ref_paths
  /\ (length (reference_images w1) <= 3)%nat
  /\ length ref_paths = 3%nat
  /\ (Forall (fun ref_path => is_Some (loadable (disk w) ref_path)) ref_paths ->
      length (reference_images w1) = 3%nat)
  /\ (forall w', reachable w1 w' -> reference_images w' = reference_images w1)
  /\ (forall w' c user_image,
      reachable w1 w' -> client w' = Some c ->
      upstream_calls (snd (convert_to_notion_style user_image w'))
      = upstream_calls w'
        ++ [(MODEL,
             map CImage (reference_images w1) ++ [CImage user_image; CText prompt])]).
Proof.
  intros (c & Hw1)%main_serving w1. unfold w1. rewrite Hw1.
  change (reference_images (set_reference_images (loaded_references (disk w))
                              (set_client (Some c) w)))
    with (loaded_references (disk w)).
  split; [done|]. split; [apply loaded_references_length|]. split; [done|].
  split; [|split].
  - unfold loaded_references, ref_paths.
    rewrite !Forall_cons. intros ([x1 E1] & [x2 E2] & [x3 E3] & _).
    cbn -[loadable path_join]. by rewrite E1, E2, E3.
  - intros w' Hr. by apply reachable_globals in Hr as [_ ->].
  - intros w' c' user_image Hr Hc.
    rewrite (convert_to_notion_style_run w' c' user_image Hc). cbn [snd].
    apply reachable_globals in Hr as [_ Hrefs]. unfold request_contents.
    by rewrite Hrefs.
Qed.

(** ** What is written *)

(** C2, as the code has it: when the answer carries exactly one inline
    payload, whose bytes (themselves, or their base64 decoding for a
    string) Pillow opens as an image, the converter returns that image;
    [/convert] answers 200 and the file served at the returned [filePath]
    holds the PNG encoding Pillow writes for that image. *)
Theorem conversion_output files file u user_image response ps payload decoded
    img png (w : World) c :
  client w = Some c ->
  files_get "image" files = Some file ->
  allowed_file (filename file) = true ->
  Z.of_nat (length (stream file)) <= MAX_FILE_SIZE ->
  Image_open (stream file) = Return u ->
  to_RGB u = Return user_image ->
  generate_content c MODEL (request_contents w user_image) = Return response ->
  response_parts response = Return ps ->
  inline_payloads ps = [payload] ->
  (payload = PyBytes decoded
   \/ exists s, payload = PyStr s /\ base64.b64decode s = Return decoded) ->
  Image_open decoded = Return img ->
  Image_save img "PNG" = Return png ->
  fst (convert_to_notion_style user_image w) = Return (Some img)
  /\ fst (convert_image files w) = Return (success_response (output_name (clock w)))
  /\ success_response (output_name (clock w)) =
     jsonify (JDict
       [ ("success", JBool true);
         ("message", JStr "Image converted successfully");
         ("results", JList [ JDict
            [ ("fileName", JStr (output_name (clock w)));
              ("filePath", JStr ("/outputs/" +:+ output_name (clock w)));
              ("mimeType", JStr "image/png") ] ]) ])
  /\ fst (serve_output (output_name (clock w)) (snd (convert_image files w)))
     = Return {| status := 200; body := FileBody png |}
  /\ base64.b64decode (base64.b64encode decoded) = Return decoded.
Proof.
  intros Hc Hf Ha Hs Ho Hr Hg Hps Hone Hdec Himg Hpng.
  assert (payload_image payload = Some img) as Hpay.
  { destruct Hdec as [->|(s & -> & Hd)]; simpl.
    - by rewrite Himg.
    - by rewrite Hd, Himg. }
  rewrite (convert_to_notion_style_run w c user_image Hc).
  rewrite (convert_image_validated files file w c Hc Hf Ha Hs).
  rewrite (processed_run file u user_image w c Hc Ho Hr).
  rewrite Hg, Hps, Hone, Hpay, Hpng. cbn [fst snd].
  split; [done|]. split; [done|]. split; [done|]. split.
  - unfold serve_output. run_monad. by rewrite lookup_insert_eq.
  - apply b64decode_b64encode.
Qed.

End ServerFacts.

(** * Further properties of the extension check *)

Section StrExtras.

Lemma lower_char_dot a : Ascii.eqb (Str.lower_char a) "." = Ascii.eqb a ".".
Proof. destruct a as [[] [] [] [] [] [] [] []]; reflexivity. Qed.

Lemma lower_char_idem a : Str.lower_char (Str.lower_char a) = Str.lower_char a.
Proof. destruct a as [[] [] [] [] [] [] [] []]; reflexivity. Qed.

Lemma lower_idem s : Str.lower (Str.lower s) = Str.lower s.
Proof. induction s as [|a s IH]; simpl; [done|]. by rewrite lower_char_idem, IH. Qed.

Lemma contains_dot_lower s : Str.contains "." (Str.lower s) = Str.contains "." s.
Proof. induction s as [|a s IH]; simpl; [done|]. by rewrite lower_char_dot, IH. Qed.

(** Lower-casing keeps the dots where they are, so the split commutes
    with it. *)
Lemma rsplit_last_lower s :
  Str.rsplit_last "." (Str.lower s)
  = match Str.rsplit_last "." s with
    | Some (pre, post) => Some (Str.lower pre, Str.lower post)
    | None => None
    end.
Proof.
  induction s as [|a s IH]; simpl; [done|]. rewrite IH.
  destruct (Str.rsplit_last "." s) as [[pre post]|]; [done|].
  rewrite lower_char_dot. by destruct (Ascii.eqb a ".").
Qed.

(** X15: the check does not depend on the case of any letter of the
    name: a name and its lower-case form are accepted or rejected
    together. *)
Theorem allowed_file_case_insensitive name :
  allowed_file (Str.lower name) = allowed_file name.
Proof.
  unfold allowed_file, Str.rsplit1.
  rewrite contains_dot_lower, rsplit_last_lower.
  destruct (Str.rsplit_last "." name) as [[pre post]|]; simpl.
  - by rewrite lower_idem.
  - done.
Qed.

End StrExtras.

(** * Further properties of the output names *)

Section ClockFacts.

Lemma string_length_append s t :
  String.length (s +:+ t) = (String.length s + String.length t)%nat.
Proof. induction s as [|a s IH]; simpl; [done|]. by rewrite IH. Qed.

Lemma string_append_inj s1 s2 t1 t2 :
  String.length s1 = String.length s2 ->
  s1 +:+ t1 = s2 +:+ t2 -> s1 = s2 /\ t1 = t2.
Proof.
  revert s2. induction s1 as [|a s1 IH]; intros [|b s2]; simpl; try done.
  intros [= Hl] [= -> Happ]. destruct (IH s2 Hl Happ) as [-> ->]. done.
Qed.

Lemma pad_digits_length n z : String.length (pad_digits n z) = n.
Proof.
  revert z. induction n as [|n IH]; intros z; simpl; [done|].
  rewrite string_length_append, IH. simpl. lia.
Qed.

(** A number that fits the width is read back from its digits. *)
Lemma pad_digits_inj n z1 z2 :
  0 <= z1 < 10 ^ Z.of_nat n -> 0 <= z2 < 10 ^ Z.of_nat n ->
  pad_digits n z1 = pad_digits n z2 -> z1 = z2.
Proof.
  revert z1 z2. induction n as [|n IH]; intros z1 z2 H1 H2.
  - simpl in *. lia.
  - rewrite Nat2Z.inj_succ, Z.pow_succ_r in H1, H2 by lia.
    cbn [pad_digits]. intros E.
    apply string_append_inj in E as [Ehigh [= Elow]];
      [|by rewrite !pad_digits_length].
    pose proof (Z.mod_pos_bound z1 10 ltac:(lia)).
    pose proof (Z.mod_pos_bound z2 10 ltac:(lia)).
    pose proof (Z.div_mod z1 10 ltac:(lia)).
    pose proof (Z.div_mod z2 10 ltac:(lia)).
    apply IH in Ehigh;
      [|split; [apply Z.div_pos; lia|apply Z.div_lt_upper_bound; lia]..].
    apply (f_equal Z_of_ascii) in Elow.
    rewrite !Z_of_ascii_of_Z in Elow by lia.
    lia.
Qed.

Lemma strftime_compact_length d : String.length (strftime_compact d) = 15%nat.
Proof.
  unfold strftime_compact. by rewrite !string_length_append, !pad_digits_length.
Qed.

Lemma strftime_compact_same_second d1 d2 :
  same_second d1 d2 -> strftime_compact d1 = strftime_compact d2.
Proof.
  intros (Hy & Hm & Hd & Hh & Hmi & Hs). unfold strftime_compact.
  by rewrite Hy, Hm, Hd, Hh, Hmi, Hs.
Qed.

Lemma output_name_same_second d1 d2 :
  same_second d1 d2 -> output_name d1 = output_name d2.
Proof.
  intros Hsame. unfold output_name. by rewrite (strftime_compact_same_second d1 d2).
Qed.

(** X4: two output names are the same exactly when the two times fall in
    the same second: the microseconds never enter the name, and times of
    different seconds never share a file. *)
Theorem output_name_per_second d1 d2 :
  valid_datetime d1 -> valid_datetime d2 ->
  (output_name d1 = output_name d2 <-> same_second d1 d2)
  /\ String.length (output_name d1) = 33%nat.
Proof.
  intros (Hy1 & Hm1 & Hd1 & Hh1 & Hmi1 & Hs1) (Hy2 & Hm2 & Hd2 & Hh2 & Hmi2 & Hs2).
  split; [split|].
  - unfold output_name. intros E.
    apply string_append_inj in E as [_ E]; [|done].
    apply string_append_inj in E as [E _];
      [|by rewrite !strftime_compact_length].
    unfold strftime_compact in E.
    apply string_append_inj in E as [Ey E]; [|by rewrite !pad_digits_length].
    apply string_append_inj in E as [Em E]; [|by rewrite !pad_digits_length].
    apply string_append_inj in E as [Ed E]; [|by rewrite !pad_digits_length].
    apply string_append_inj in E as [_ E]; [|done].
    apply string_append_inj in E as [Eh E]; [|by rewrite !pad_digits_length].
    apply string_append_inj in E as [Emi Es]; [|by rewrite !pad_digits_length].
    apply pad_digits_inj in Ey, Em, Ed, Eh, Emi, Es; simpl; try lia.
    by repeat split.
  - apply output_name_same_second.
  - unfold output_name.
    by rewrite !string_length_append, strftime_compact_length.
Qed.

End ClockFacts.

(** * Further properties of the server *)

Section ServerExtras.

Context `{PIL} `{!GenAI}.

(** ** What a [/convert] request can do *)

(** Every way [convert_image] can end: a 400 with the world untouched, a
    500 with at most the one request sent, or the success answer with the
    request sent and the output file written. *)
Lemma convert_image_outcome files (w : World) :
  exists resp w',
    convert_image files w = (Return resp, w')
    /\ ((status resp = 400 /\ w' = w)
        \/ (status resp = 500
            /\ (w' = w
                \/ exists user_image,
                     w' = record_call MODEL (request_contents w user_image) w))
        \/ (exists user_image png,
              resp = success_response (output_name (clock w))
              /\ w' = write_file (path_join UPLOAD_FOLDER (output_name (clock w))) png
                        (record_call MODEL (request_contents w user_image) w))).
Proof.
  destruct (client w) as [c|] eqn:Hc.
  2:{ rewrite convert_image_uninitialised by done.
      eexists _, _. split; [done|]. right. left. by split; [|left]. }
  destruct (files_get "image" files) as [file|] eqn:Hf.
  2:{ rewrite (convert_image_no_file files w c) by done.
      eexists _, _. split; [done|]. by left. }
  destruct (String.eqb_spec (filename file) "") as [Hn|Hn].
  { rewrite (convert_image_no_name files file w c) by done.
    eexists _, _. split; [done|]. by left. }
  destruct (allowed_file (filename file)) eqn:Ha.
  2:{ rewrite (convert_image_bad_type files file w c) by done.
      eexists _, _. split; [done|]. by left. }
  destruct (Z.lt_ge_cases MAX_FILE_SIZE (Z.of_nat (length (stream file)))) as [Hs|Hs].
  { rewrite (convert_image_too_large files file w c) by done.
    eexists _, _. split; [done|]. by left. }
  rewrite (convert_image_validated files file w c Hc Hf Ha Hs).
  destruct (Image_open (stream file)) as [u|e] eqn:Ho.
  2:{ unfold processed, process_upload. run_monad. rewrite Ho.
      eexists _, _. split; [done|]. right. left. by split; [|left]. }
  destruct (to_RGB u) as [user_image|e] eqn:Hr.
  2:{ unfold processed, process_upload. run_monad. rewrite Ho, Hr.
      eexists _, _. split; [done|]. right. left. by split; [|left]. }
  rewrite (processed_run file u user_image w c Hc Ho Hr). cbv zeta.
  destruct (generate_content c MODEL (request_contents w user_image))
    as [response|e].
  2:{ eexists _, _. split; [done|]. right. left. split; [done|]. right. eauto. }
  destruct (response_parts response) as [ps|e].
  2:{ eexists _, _. split; [done|]. right. left. split; [done|]. right. eauto. }
  destruct (match inline_payloads ps with [] => None | d :: _ => payload_image d end)
    as [g|].
  2:{ eexists _, _. split; [done|]. right. left. split; [done|]. right. eauto. }
  destruct (Image_save g "PNG") as [png|e].
  2:{ eexists _, _. split; [done|]. right. left. split; [done|]. right. eauto. }
  eexists _, _. split; [done|]. right. right. eauto.
Qed.

(** X1: [/convert] never lets an exception out: whatever the request and
    the state, it answers, with status 200, 400 or 500. *)
Theorem convert_image_always_answers files (w : World) :
  exists resp,
    fst (convert_image files w) = Return resp
    /\ (status resp = 200 \/ status resp = 400 \/ status resp = 500).
Proof.
  destruct (convert_image_outcome files w)
    as (resp & w' & -> & [[Hs _]|[[Hs _]|(u & png & -> & _)]]);
    exists resp || eexists; (split; [done|]); auto.
Qed.

(** X2: a 400 from [/convert] leaves the server as it was: nothing was
    sent to the service and no file was written. *)
Theorem convert_image_400_untouched files (w : World) resp w' :
  convert_image files w = (Return resp, w') ->
  status resp = 400 ->
  w' = w.
Proof.
  intros E Hs.
  destruct (convert_image_outcome files w)
    as (resp0 & w0 & E0 & [[_ ->]|[[Hs0 _]|(u & png & -> & _)]]);
    rewrite E in E0; injection E0 as -> ->; [done|..].
  - rewrite Hs in Hs0. discriminate.
  - discriminate.
Qed.


(** X5: two conversions that succeed within the same second write the
    same file: the second answer is the first one again, with the same
    [filePath], and the file of the first conversion is replaced by the
    PNG of the second image: the disk ends up as the disk before both
    with that PNG alone at the path, and that PNG is what is served. *)
Theorem same_second_overwrites files1 files2 file2 u2 user2 response2 ps2
    image2 rest2 g2 png2 (w w1 w1' : World) r1 c2 :
  convert_image files1 w = (Return r1, w1) ->
  status r1 = 200 ->
  disk w1' = disk w1 ->
  same_second (clock w1') (clock w) ->
  client w1' = Some c2 ->
  files_get "image" files2 = Some file2 ->
  allowed_file (filename file2) = true ->
  Z.of_nat (length (stream file2)) <= MAX_FILE_SIZE ->
  Image_open (stream file2) = Return u2 ->
  to_RGB u2 = Return user2 ->
  generate_content c2 MODEL (request_contents w1' user2) = Return response2 ->
  response_parts response2 = Return ps2 ->
  inline_payloads ps2 = image2 :: rest2 ->
  payload_image image2 = Some g2 ->
  Image_save g2 "PNG" = Return png2 ->
  let path := path_join UPLOAD_FOLDER (output_name (clock w)) in
  let w2 := snd (convert_image files2 w1') in
  (exists png1, disk w1 = <[path := png1]> (disk w))
  /\ fst (convert_image files2 w1') = Return r1
  /\ disk w2 = <[path := png2]> (disk w)
  /\ fst (serve_output (output_name (clock w)) w2)
     = Return {| status := 200; body := FileBody png2 |}.
Proof.
  intros E1 Hs1 Hdisk Hsame Hc Hf Ha Hs Ho Hr Hg Hps Hfirst Hpay Hpng path w2.
  destruct (convert_image_outcome files1 w)
    as (r & w' & E & [[Hst _]|[[Hst _]|(u1 & png1 & Er1 & Ew1)]]);
    rewrite E1 in E; injection E as <- <-; [rewrite Hs1 in Hst; discriminate..|].
  assert (convert_image files2 w1'
          = (Return r1,
             write_file path png2 (record_call MODEL (request_contents w1' user2) w1')))
    as E2.
  { rewrite (convert_image_validated files2 file2 w1' c2 Hc Hf Ha Hs).
    rewrite (processed_run file2 u2 user2 w1' c2 Hc Ho Hr).
    rewrite Hg, Hps, Hfirst, Hpay, Hpng. cbv zeta.
    rewrite (output_name_same_second _ _ Hsame). by rewrite Er1. }
  unfold w2. rewrite E2. cbn [fst snd].
  split; [exists png1; by rewrite Ew1|]. split; [done|].
  assert (disk (write_file path png2
                  (record_call MODEL (request_contents w1' user2) w1'))
          = <[path := png2]> (disk w)) as Hd.
  { simpl. rewrite Hdisk, Ew1. simpl. by rewrite insert_insert_eq. }
  split; [done|].
  unfold serve_output. run_monad. fold path. rewrite Hdisk, Ew1. simpl.
  by rewrite lookup_insert_eq.
Qed.

(** ** Unusable uploads and answers *)

(** X6: an upload that passed validation but that Pillow cannot open, or
    cannot convert to RGB, is answered 500 with the exception's text, and
    nothing is sent to the service. *)
Theorem convert_unreadable_upload files file (w : World) c :
  client w = Some c ->
  files_get "image" files = Some file ->
  allowed_file (filename file) = true ->
  Z.of_nat (length (stream file)) <= MAX_FILE_SIZE ->
  (forall e, Image_open (stream file) = Raise e ->
     convert_image files w =
     (Return (error_response ("Error processing image: " +:+ exn_str e) 500), w))
  /\ (forall u e, Image_open (stream file) = Return u -> to_RGB u = Raise e ->
     convert_image files w =
     (Return (error_response ("Error processing image: " +:+ exn_str e) 500), w)).
Proof.
  intros Hc Hf Ha Hs.
  rewrite (convert_image_validated files file w c Hc Hf Ha Hs).
  unfold processed, process_upload. run_monad. split.
  - by intros e ->.
  - by intros u e -> ->.
Qed.

(** X7: when the first inline payload cannot be used (it is neither
    bytes nor a string, its base64 text does not decode, or Pillow does
    not open its bytes), the converter returns [None] without raising and
    without trying a later payload, and [/convert] answers 500 "Failed to
    generate avatar" after the one request was sent. *)
Theorem converter_unusable_payload files file u user_image response ps
    image_data rest (w : World) c :
  client w = Some c ->
  files_get "image" files = Some file ->
  allowed_file (filename file) = true ->
  Z.of_nat (length (stream file)) <= MAX_FILE_SIZE ->
  Image_open (stream file) = Return u ->
  to_RGB u = Return user_image ->
  generate_content c MODEL (request_contents w user_image) = Return response ->
  response_parts response = Return ps ->
  inline_payloads ps = image_data :: rest ->
  (image_data = PyNone
   \/ (exists b e, image_data = PyBytes b /\ Image_open b = Raise e)
   \/ (exists s e, image_data = PyStr s /\ base64.b64decode s = Raise e)
   \/ (exists s b e, image_data = PyStr s /\ base64.b64decode s = Return b
                     /\ Image_open b = Raise e)) ->
  fst (convert_to_notion_style user_image w) = Return None
  /\ convert_image files w =
     (Return (error_response "Failed to generate avatar" 500),
      record_call MODEL (request_contents w user_image) w).
Proof.
  intros Hc Hf Ha Hs Ho Hr Hg Hps Hfirst Hbad.
  assert (payload_image image_data = None) as Hpay.
  { destruct Hbad as [->|[(b & e & -> & Hb)|[(t & e & -> & Ht)|(t & b & e & -> & Ht & Hb)]]];
      simpl; [done|by rewrite Hb|by rewrite Ht|by rewrite Ht, Hb]. }
  rewrite (convert_to_notion_style_run w c user_image Hc).
  rewrite (convert_image_validated files file w c Hc Hf Ha Hs).
  rewrite (processed_run file u user_image w c Hc Ho Hr).
  by rewrite Hg, Hps, Hfirst, Hpay.
Qed.

(** X8: an answer whose parts cannot be reached (no candidate list, an
    empty one, a candidate without content, a content without parts)
    makes the converter raise, after the request was sent; [/convert]
    turns that into a 500 with the exception's text. *)
Theorem converter_malformed_response files file u user_image response e
    (w : World) c :
  client w = Some c ->
  files_get "image" files = Some file ->
  allowed_file (filename file) = true ->
  Z.of_nat (length (stream file)) <= MAX_FILE_SIZE ->
  Image_open (stream file) = Return u ->
  to_RGB u = Return user_image ->
  generate_content c MODEL (request_contents w user_image) = Return response ->
  response_parts response = Raise e ->
  convert_to_notion_style user_image w
  = (Raise e, record_call MODEL (request_contents w user_image) w)
  /\ convert_image files w =
     (Return (error_response ("Error processing image: " +:+ exn_str e) 500),
      record_call MODEL (request_contents w user_image) w)
  /\ (candidates response = None ->
      exn_str e = "'NoneType' object is not subscriptable")
  /\ (candidates response = Some [] -> exn_str e = "list index out of range").
Proof.
  intros Hc Hf Ha Hs Ho Hr Hg Hps.
  rewrite (convert_to_notion_style_run w c user_image Hc).
  rewrite (convert_image_validated files file w c Hc Hf Ha Hs).
  rewrite (processed_run file u user_image w c Hc Ho Hr).
  rewrite Hg, Hps. split; [done|]. split; [done|].
  unfold response_parts in Hps.
  split; intros Hcand; rewrite Hcand in Hps; by injection Hps as <-.
Qed.

(** X9: a base64 text payload is treated as the bytes it encodes: for the
    text [b64encode b] the converter returns what it returns for the
    binary payload [b]. *)
Theorem converter_text_payload_as_binary (w : World) c user_image response
    before part after b :
  client w = Some c ->
  generate_content c MODEL (request_contents w user_image) = Return response ->
  response_parts response = Return (before ++ part :: after) ->
  Forall (fun p => inline_data p = None) before ->
  inline_data part = Some {| data := PyStr (base64.b64encode b) |} ->
  fst (convert_to_notion_style user_image w)
  = Return (match Image_open b with Return img => Some img | Raise _ => None end).
Proof.
  intros Hc Hg Hps Hb Hp.
  rewrite (convert_to_notion_style_run w c user_image Hc), Hg, Hps.
  rewrite (inline_payloads_first before part _ after Hb Hp).
  simpl. by rewrite b64decode_b64encode.
Qed.

(** ** Start-up and the globals *)

Lemma init_genai_empty (w : World) :
  getenv "GEMINI_API_KEY" w = Some "" -> init_genai w = (Return false, w).
Proof. intros He. unfold init_genai. run_monad. by rewrite He. Qed.

Lemma init_genai_no_client (w : World) key e :
  getenv "GEMINI_API_KEY" w = Some key -> genai_Client key = Raise e ->
  init_genai w = (Return false, w).
Proof.
  intros He Hc. unfold init_genai. run_monad. rewrite He.
  destruct (String.eqb key ""); [done|]. run_monad. by rewrite Hc.
Qed.

Lemma main_init_failed (w : World) :
  init_genai w = (Return false, w) -> main w = (Return (Exit 1), w).
Proof. intros Hi. unfold main, Monad.bind. by rewrite Hi. Qed.

(** X10: [init_genai] never raises; it returns [True] only for a
    non-empty key with which the client could be built, and then only
    [client] has changed; in every other case nothing has.  An empty key
    and a failing constructor end the start-up in [exit(1)] like a missing
    key. *)
Theorem init_genai_outcomes (w : World) :
  (exists ok w',
     init_genai w = (Return ok, w')
     /\ (ok = false -> w' = w)
     /\ (ok = true ->
         exists key c, getenv "GEMINI_API_KEY" w = Some key /\ key <> ""
                       /\ genai_Client key = Return c
                       /\ w' = set_client (Some c) w))
  /\ (getenv "GEMINI_API_KEY" w = Some "" -> main w = (Return (Exit 1), w))
  /\ (forall key e, getenv "GEMINI_API_KEY" w = Some key ->
        genai_Client key = Raise e -> main w = (Return (Exit 1), w)).
Proof.
  split; [|split].
  - destruct (getenv "GEMINI_API_KEY" w) as [key|] eqn:He.
    2:{ rewrite (init_genai_unset w He). eexists _, _. by repeat split. }
    destruct (String.eqb_spec key "") as [->|Hk].
    { rewrite (init_genai_empty w He). eexists _, _. by repeat split. }
    destruct (genai_Client key) as [c|e] eqn:Hc.
    + rewrite (init_genai_set w key c He Hk Hc).
      eexists _, _. split; [done|]. split; [done|]. intros _. by exists key, c.
    + rewrite (init_genai_no_client w key e He Hc). eexists _, _. by repeat split.
  - intros He. by apply main_init_failed, init_genai_empty.
  - intros key e He Hc. by apply main_init_failed, (init_genai_no_client w key e).
Qed.

(** X11: a [FLASK_PORT] that is not an integer literal is not replaced
    by the default: the start-up raises the [ValueError] of [int], after
    the client was built and the references loaded, and [app.run] is not
    reached. *)
Theorem startup_bad_port (w : World) key c v e :
  getenv "GEMINI_API_KEY" w = Some key -> key <> "" ->
  genai_Client key = Return c ->
  getenv "FLASK_PORT" w = Some v ->
  PyInt.int v = Raise e ->
  main w = (Raise e, set_reference_images (loaded_references (disk w))
                       (set_client (Some c) w))
  /\ forall host port, fst (main w) <> Return (Serving host port).
Proof.
  intros He Hk Hc Hp Hv.
  assert (main w = (Raise e, set_reference_images (loaded_references (disk w))
                               (set_client (Some c) w))) as ->.
  { unfold main, Monad.bind. rewrite (init_genai_set w key c He Hk Hc). simpl.
    rewrite load_reference_images_run.
    unfold Monad.get, Monad.lift, Monad.ret.
    change (getenv "FLASK_PORT" (set_reference_images _ (set_client (Some c) w)))
      with (getenv "FLASK_PORT" w).
    by rewrite Hp, Hv. }
  done.
Qed.

(** X12: [load_reference_images] never raises and starts from an empty
    list: what was loaded before does not matter, loading again gives the
    same set and no duplicates, and nothing but [reference_images] is
    changed. *)
Theorem load_reference_images_idempotent (w : World) :
  let w1 := snd (load_reference_images w) in
  fst (load_reference_images w) = Return tt
  /\ load_reference_images w1 = (Return tt, w1)
  /\ (forall l, snd (load_reference_images (set_reference_images l w)) = w1)
  /\ client w1 = client w /\ disk w1 = disk w /\ environ w1 = environ w
  /\ clock w1 = clock w /\ upstream_calls w1 = upstream_calls w.
Proof.
  intros w1. unfold w1. rewrite (load_reference_images_run w). cbn [fst snd].
  split; [done|]. split; [by rewrite load_reference_images_run|].
  split; [|done]. intros l. by rewrite load_reference_images_run.
Qed.

(** X13: in a server started by [__main__], [/health] always answers 200
    with [genai_initialized] true and the number of references loaded at
    start-up, at most 3, and changes nothing. *)
Theorem health_in_running_server (w0 w : World) host port :
  fst (main w0) = Return (Serving host port) ->
  reachable (snd (main w0)) w ->
  let loaded := Z.of_nat (length (loaded_references (disk w0))) in
  health_check w =
  (Return (jsonify_status (JDict
     [ ("status", JStr "OK");
       ("timestamp", JStr (isoformat (clock w)));
       ("genai_initialized", JBool true);
       ("reference_images_loaded", JInt loaded);
       ("api_key_configured", JBool (getenv_truthy "GEMINI_API_KEY" w)) ]) 200), w)
  /\ 0 <= loaded <= 3.
Proof.
  intros (c & Hw1)%main_serving [Hc Hr]%reachable_globals loaded.
  rewrite Hw1 in Hc, Hr. simpl in Hc, Hr.
  split.
  - unfold health_check. run_monad. by rewrite Hc, Hr.
  - unfold loaded. pose proof (loaded_references_length (disk w0)). lia.
Qed.

(** X14: no request builds the client: in a process where [client] is
    unset (the module was loaded without [__main__], say) it stays unset,
    and every [/convert], whatever it carries, is answered 500 "GenAI
    client not initialized" with nothing changed. *)
Theorem uninitialised_stays (w0 w : World) files :
  client w0 = None ->
  reachable w0 w ->
  client w = None
  /\ convert_image files w =
     (Return (error_response "GenAI client not initialized" 500), w).
Proof.
  intros Hnone [Hc _]%reachable_globals. rewrite Hnone in Hc.
  split; [done|]. by apply convert_image_uninitialised.
Qed.

End ServerExtras.

(** * The sample deployment, run *)

Import Sample.

(** Three parts, two of them with inline data: the base64 text of the
    second part is decoded and opened, the third part is not looked at. *)
Lemma converter_first_payload_witness :
  fst (convert_to_notion_style (H := codec) portrait w_mixed)
  = Return (Some {| mode := "RGB"; pixels := ["1"; "2"; "3"]%byte |}).
Proof.
  refine (proj2 (converter_first_payload (H := codec) w_mixed _ portrait
                   mixed_answer
                   [text_part "Here is your avatar"]
                   (image_part (PyStr "SlIxMjM=")) {| data := PyStr "SlIxMjM=" |}
                   [image_part (PyBytes png_payload)]
                   eq_refl eq_refl eq_refl _ eq_refl)).
  repeat constructor.
Defined.

(** One PNG payload of the sample codec: the image is returned, the
    answer is 200 and the file served is what the codec wrote. *)
Lemma conversion_output_witness :
  fst (convert_to_notion_style (H := codec) portrait w_png)
  = Return (Some {| mode := "RGB"; pixels := ["1"; "2"; "3"]%byte |})
  /\ fst (convert_image (H := codec) (upload "me.jpg" photo) w_png)
     = Return (success_response noon_name)
  /\ fst (serve_output (H := codec) noon_name
            (snd (convert_image (H := codec) (upload "me.jpg" photo) w_png)))
     = Return {| status := 200; body := FileBody png_payload |}.
Proof.
  pose proof (conversion_output (H := codec) (upload "me.jpg" photo)
                {| filename := "me.jpg"; stream := photo |}
                {| mode := "L"; pixels := ["9"; "9"]%byte |} portrait
                png_answer [image_part (PyBytes png_payload)]
                (PyBytes png_payload) png_payload
                {| mode := "RGB"; pixels := ["1"; "2"; "3"]%byte |} png_payload
                w_png _ eq_refl eq_refl eq_refl ltac:(vm_compute; discriminate)
                eq_refl eq_refl eq_refl eq_refl eq_refl (or_introl eq_refl)
                eq_refl eq_refl) as (H1 & H2 & _ & H4 & _).
  exact (conj H1 (conj H2 H4)).
Defined.

(** C2, as the claim states it, fails: for an answer with exactly one
    inline payload, the JPEG file of the sample codec, [/convert] answers
    200 and the file served at the returned [filePath] is not the
    payload. *)
Lemma conversion_output_not_identical :
  inline_payloads [image_part (PyBytes jpeg_payload)] = [PyBytes jpeg_payload]
  /\ fst (convert_image (H := codec) (upload "me.jpg" photo) w_jpeg)
     = Return (success_response noon_name)
  /\ exists written,
       fst (serve_output (H := codec) noon_name
              (snd (convert_image (H := codec) (upload "me.jpg" photo) w_jpeg)))
       = Return {| status := 200; body := FileBody written |}
       /\ written <> jpeg_payload.
Proof.
  split; [reflexivity|]. split; [by vm_compute|].
  exists png_payload. split; [by vm_compute|discriminate].
Qed.

(** A text file is refused, and nothing is sent. *)
Lemma convert_rejects_bad_extension_witness :
  exists resp,
    convert_image (H := codec) (upload "notes.txt" photo) w_started
    = (Return resp, w_started)
    /\ status resp = 400
    /\ upstream_calls
         (snd (convert_image (H := codec) (upload "notes.txt" photo) w_started))
       = upstream_calls w_started
    /\ ("notes.txt" <> "" ->
        resp = error_response
          "Invalid file type. Please upload PNG, JPG, JPEG, GIF, BMP, or WebP" 400).
Proof.
  apply (convert_rejects_bad_extension (H := codec) (H0 := service)
           w_key w_started "0.0.0.0" 5000 (upload "notes.txt" photo)
           {| filename := "notes.txt"; stream := photo |}
           eq_refl (reachable_start _) eq_refl).
  apply allowed_file_false_iff. reflexivity.
Defined.

(** A small upload passes validation; one byte over the limit does not. *)
Lemma convert_size_threshold_witness :
  convert_image (H := codec) (upload "me.jpg" photo) w_started
  = processed (H := codec) {| filename := "me.jpg"; stream := photo |} w_started
  /\ convert_image (H := codec) (upload "big.png" oversized) w_started
     = (Return (error_response "File too large. Maximum size is 10MB" 400), w_started).
Proof.
  split.
  - apply (convert_size_threshold (H := codec) (H0 := service)
             w_key w_started "0.0.0.0" 5000 (upload "me.jpg" photo)
             {| filename := "me.jpg"; stream := photo |}
             eq_refl (reachable_start _) eq_refl).
    + reflexivity.
    + vm_compute. discriminate.
  - apply (convert_size_threshold (H := codec) (H0 := service)
             w_key w_started "0.0.0.0" 5000 (upload "big.png" oversized)
             {| filename := "big.png"; stream := oversized |}
             eq_refl (reachable_start _) eq_refl).
    + reflexivity.
    + change (MAX_FILE_SIZE < Z.of_nat (length oversized)).
      unfold oversized. rewrite repeat_length, Z2Nat.id; [lia|discriminate].
Defined.

(** A text-only answer gives "Failed to generate avatar"; an outage of
    the service gives another 500. *)
Lemma converter_text_only_witness :
  (fst (convert_to_notion_style (H := codec) portrait w_text) = Return None
   /\ fst (convert_image (H := codec) (upload "me.jpg" photo) w_text)
      = Return (error_response "Failed to generate avatar" 500))
  /\ fst (convert_image (H := codec) (upload "me.jpg" photo) w_down)
     = Return (error_response "Error processing image: 503 UNAVAILABLE" 500).
Proof.
  split.
  - refine (proj1 (converter_text_only (H := codec) (upload "me.jpg" photo)
                     {| filename := "me.jpg"; stream := photo |}
                     {| mode := "L"; pixels := ["9"; "9"]%byte |} portrait
                     w_text _ eq_refl eq_refl eq_refl _ eq_refl eq_refl)
                  text_answer [text_part "I can only describe this picture"]
                  eq_refl eq_refl _).
    + vm_compute. discriminate.
    + repeat constructor.
  - refine (proj1 (proj2 (proj2 (converter_text_only (H := codec)
                     (upload "me.jpg" photo)
                     {| filename := "me.jpg"; stream := photo |}
                     {| mode := "L"; pixels := ["9"; "9"]%byte |} portrait
                     w_down _ eq_refl eq_refl eq_refl _ eq_refl eq_refl)
                  outage eq_refl))).
    vm_compute. discriminate.
Defined.

(** Without the credential the start-up exits; with it the server runs
    on 5000, or on the port of the environment. *)
Lemma startup_credential_and_port_witness :
  (main (H := codec) (H0 := service) w_no_key = (Return (Exit 1), w_no_key)
   /\ 1 <> 0
   /\ forall host port,
        fst (main (H := codec) (H0 := service) w_no_key) <> Return (Serving host port))
  /\ fst (main (H := codec) (H0 := service) w_key) = Return (Serving "0.0.0.0" 5000)
  /\ fst (main (H := codec) (H0 := service) w_key_port)
     = Return (Serving "0.0.0.0" 8080).
Proof.
  split; [|split].
  - apply (startup_credential_and_port (H := codec) (H0 := service) w_no_key).
    reflexivity.
  - rewrite (proj1 (proj2 (startup_credential_and_port (H := codec) (H0 := service)
                             w_key)
                      "secret" _ eq_refl ltac:(discriminate) eq_refl) eq_refl).
    reflexivity.
  - rewrite (proj2 (proj2 (startup_credential_and_port (H := codec) (H0 := service)
                             w_key_port)
                      "secret" _ eq_refl ltac:(discriminate) eq_refl)
               "8080" 8080 eq_refl eq_refl).
    reflexivity.
Defined.

(** The request of a conversion in the sample: three references, the
    portrait, the instruction text. *)
Lemma converter_single_request_witness :
  upstream_calls (snd (convert_to_notion_style (H := codec) portrait w_png))
  = [(MODEL,
      [ @CImage codec {| mode := "RGB"; pixels := ["a"%byte] |};
        @CImage codec {| mode := "RGB"; pixels := ["b"%byte] |};
        @CImage codec {| mode := "RGB"; pixels := ["c"%byte] |};
        @CImage codec portrait;
        CText prompt ])].
Proof.
  exact (proj1 (converter_single_request (H := codec) w_png _ portrait eq_refl)).
Defined.

(** C8, as the claim states it, fails: with one of the three files
    missing the server starts and serves with two reference images. *)
Lemma reference_images_not_three :
  fst (main (H := codec) (H0 := service) w_two_refs) = Return (Serving "0.0.0.0" 5000)
  /\ length (reference_images (snd (main (H := codec) (H0 := service) w_two_refs)))
     = 2%nat
  /\ length (reference_images (snd (main (H := codec) (H0 := service) w_two_refs)))
     <> 3%nat.
Proof. split; [by vm_compute|]. split; [by vm_compute|]. by vm_compute. Qed.

(** With the three files in place three images are loaded, and a request
    handled later leaves them as they are. *)
Lemma reference_images_fixed_witness :
  length (reference_images (snd (main (H := codec) (H0 := service) w_key))) = 3%nat
  /\ reference_images
       (snd (handle (H := codec) (POST_convert (upload "me.jpg" photo))
               (snd (main (H := codec) (H0 := service) w_key))))
     = reference_images (snd (main (H := codec) (H0 := service) w_key)).
Proof.
  pose proof (reference_images_fixed (H := codec) (H0 := service) w_key
                "0.0.0.0" 5000 ltac:(vm_compute; reflexivity))
    as (_ & _ & _ & H3 & Hfix & _).
  split.
  - apply H3. repeat constructor; vm_compute; eauto.
  - apply Hfix. eapply reachable_step; [apply reachable_start|apply step_request].
Defined.

(** A name without a dot, and a name whose last suffix is not an image
    extension. *)
Lemma allowed_file_last_suffix_witness :
  allowed_file "README" = false
  /\ allowed_file ("holiday.JPG" +:+ "." +:+ "zip")
     = bool_decide (Str.lower "zip" ∈ ALLOWED_EXTENSIONS).
Proof.
  split.
  - apply (proj1 allowed_file_last_suffix). reflexivity.
  - apply (proj1 (proj2 allowed_file_last_suffix)). reflexivity.
Defined.

(** An oversized upload with a disallowed extension is refused for its
    type; without a client the same request gets the 500. *)
Lemma convert_check_order_witness :
  convert_image (H := codec) (upload "big.exe" oversized) w_png
  = (Return (error_response
       "Invalid file type. Please upload PNG, JPG, JPEG, GIF, BMP, or WebP" 400), w_png)
  /\ convert_image (H := codec) (upload "big.exe" oversized) w_key
     = (Return (error_response "GenAI client not initialized" 500), w_key).
Proof.
  split.
  - destruct (proj2 (convert_check_order (H := codec) (upload "big.exe" oversized)
                       w_png) _ eq_refl) as [_ Hfile].
    destruct (Hfile {| filename := "big.exe"; stream := oversized |} eq_refl)
      as (_ & Hbad & _).
    apply Hbad; [discriminate|reflexivity].
  - apply (proj1 (convert_check_order (H := codec) (upload "big.exe" oversized) w_key)).
    reflexivity.
Defined.

(** ** Further runs *)

(** The refused text file left the sample as it was. *)
Lemma convert_image_400_untouched_witness :
  snd (convert_image (H := codec) (upload "notes.txt" photo) w_png) = w_png.
Proof.
  apply (convert_image_400_untouched (H := codec) (upload "notes.txt" photo) w_png
           (error_response
              "Invalid file type. Please upload PNG, JPG, JPEG, GIF, BMP, or WebP" 400)).
  - vm_compute. reflexivity.
  - reflexivity.
Defined.


(** Noon and a quarter of a second later share a name. *)
Lemma output_name_per_second_witness :
  output_name noon = output_name later.
Proof.
  apply (output_name_per_second noon later).
  - unfold valid_datetime. simpl. lia.
  - unfold valid_datetime. simpl. lia.
  - unfold same_second. simpl. done.
Defined.

(** A second conversion a quarter of a second later answers like the
    first and replaces its file by another image. *)
Lemma same_second_overwrites_witness :
  fst (serve_output (H := codec) noon_name w_once)
  = Return {| status := 200; body := FileBody png_payload |}
  /\ fst (convert_image (H := codec) (upload "you.png" photo) w_once_later)
     = Return (success_response noon_name)
  /\ fst (serve_output (H := codec) noon_name
            (snd (convert_image (H := codec) (upload "you.png" photo) w_once_later)))
     = Return {| status := 200; body := FileBody other_payload |}
  /\ other_payload <> png_payload.
Proof.
  destruct (same_second_overwrites (H := codec)
              (upload "me.jpg" photo) (upload "you.png" photo)
              {| filename := "you.png"; stream := photo |}
              {| mode := "L"; pixels := ["9"; "9"]%byte |} portrait
              other_answer [image_part (PyBytes other_payload)]
              (PyBytes other_payload) []
              {| mode := "L"; pixels := ["7"; "8"]%byte |} other_payload
              w_png w_once w_once_later (success_response noon_name)
              (scripted (Return other_answer)))
    as (_ & Hanswer & _ & Hserved).
  - vm_compute. reflexivity.
  - reflexivity.
  - reflexivity.
  - unfold same_second. simpl. done.
  - reflexivity.
  - reflexivity.
  - reflexivity.
  - vm_compute. discriminate.
  - reflexivity.
  - reflexivity.
  - reflexivity.
  - reflexivity.
  - reflexivity.
  - reflexivity.
  - reflexivity.
  - split; [vm_compute; reflexivity|]. split; [exact Hanswer|].
    split; [exact Hserved|discriminate].
Defined.

(** A file named like an image that is none. *)
Lemma convert_unreadable_upload_witness :
  convert_image (H := codec) (upload "me.jpg" scribble) w_png
  = (Return (error_response "Error processing image: cannot identify image file" 500),
     w_png).
Proof.
  apply (proj1 (convert_unreadable_upload (H := codec) (upload "me.jpg" scribble)
                  {| filename := "me.jpg"; stream := scribble |} w_png _
                  eq_refl eq_refl eq_refl ltac:(vm_compute; discriminate))
           unidentified).
  reflexivity.
Defined.

(** A first payload that is no base64 text, before a usable one. *)
Lemma converter_unusable_payload_witness :
  fst (convert_to_notion_style (H := codec) portrait w_bad_text) = Return None
  /\ fst (convert_image (H := codec) (upload "me.jpg" photo) w_bad_text)
     = Return (error_response "Failed to generate avatar" 500).
Proof.
  destruct (converter_unusable_payload (H := codec) (upload "me.jpg" photo)
              {| filename := "me.jpg"; stream := photo |}
              {| mode := "L"; pixels := ["9"; "9"]%byte |} portrait
              bad_text_answer
              [image_part (PyStr "A"); image_part (PyBytes png_payload)]
              (PyStr "A") [PyBytes png_payload] w_bad_text _
              eq_refl eq_refl eq_refl ltac:(vm_compute; discriminate)
              eq_refl eq_refl eq_refl eq_refl eq_refl
              (or_intror (or_intror (or_introl
                 (ex_intro _ "A" (ex_intro _ _ (conj eq_refl eq_refl)))))))
    as [Hnone Hanswer].
  split; [exact Hnone|]. by rewrite Hanswer.
Defined.

(** An answer without candidates. *)
Lemma converter_malformed_response_witness :
  fst (convert_image (H := codec) (upload "me.jpg" photo) w_empty)
  = Return (error_response "Error processing image: list index out of range" 500).
Proof.
  destruct (converter_malformed_response (H := codec) (upload "me.jpg" photo)
              {| filename := "me.jpg"; stream := photo |}
              {| mode := "L"; pixels := ["9"; "9"]%byte |} portrait
              empty_answer (Exception "IndexError" "list index out of range")
              w_empty _
              eq_refl eq_refl eq_refl ltac:(vm_compute; discriminate)
              eq_refl eq_refl eq_refl eq_refl)
    as (_ & Hanswer & _).
  by rewrite Hanswer.
Defined.

(** The PNG of the sample, sent as base64 text. *)
Lemma converter_text_payload_as_binary_witness :
  fst (convert_to_notion_style (H := codec) portrait w_encoded)
  = Return (Some {| mode := "RGB"; pixels := ["1"; "2"; "3"]%byte |}).
Proof.
  exact (converter_text_payload_as_binary (H := codec) w_encoded _ portrait
           encoded_answer [] (image_part (PyStr (base64.b64encode png_payload))) []
           png_payload eq_refl eq_refl eq_refl (List.Forall_nil _) eq_refl).
Defined.

(** A port that is no number. *)
Lemma startup_bad_port_witness :
  fst (main (H := codec) (H0 := service) w_bad_port)
  = Raise (Exception "ValueError" "invalid literal for int() with base 10: 'http'").
Proof.
  destruct (startup_bad_port (H := codec) (H0 := service) w_bad_port "secret" _ "http"
              (Exception "ValueError" "invalid literal for int() with base 10: 'http'")
              eq_refl ltac:(discriminate) eq_refl eq_refl eq_refl)
    as [Hmain _].
  by rewrite Hmain.
Defined.

(** The health report of the started sample, after a conversion. *)
Lemma health_in_running_server_witness :
  fst (health_check (H := codec) w_started)
  = Return (jsonify (JDict
      [ ("status", JStr "OK");
        ("timestamp", JStr "2025-09-03T12:30:05");
        ("genai_initialized", JBool true);
        ("reference_images_loaded", JInt 3);
        ("api_key_configured", JBool true) ])).
Proof.
  destruct (health_in_running_server (H := codec) (H0 := service)
              w_key w_started "0.0.0.0" 5000 eq_refl (reachable_start _))
    as [Hhealth _].
  rewrite Hhealth. vm_compute. reflexivity.
Defined.

(** The sample before start-up, serving all the same. *)
Lemma uninitialised_stays_witness :
  convert_image (H := codec) (upload "me.jpg" photo) w_key
  = (Return (error_response "GenAI client not initialized" 500), w_key).
Proof.
  apply (uninitialised_stays (H := codec) w_key w_key (upload "me.jpg" photo)
           eq_refl (reachable_start _)).
Defined.
